(** * scrape_job.py: the field-extraction pipeline of the iCIMS job scraper

    A shallow embedding of the extractors and of the merge stage of
    [scrape_job.py], followed by the properties stated about them.

    Conventions of the embedding.
    - A Python [str] is a Rocq [string], one character for one code point:
      the embedding covers text with code points below 256.
    - A Python [dict] is an insertion-ordered association list with
      [dict_set] updating in place or appending, as CPython does.
    - A call that may raise returns a [result]; a [try] block that swallows
      the exception is a [match] on the result.
    - The rendered page (Selenium) and the parsed markup (BeautifulSoup)
      are records of queries; the JSON parser, the HTML parser and [repr]
      of Python objects are parameters of the section that needs them. *)

From Stdlib Require Import String Ascii List Bool Arith Lia ZArith Floats.
Set Warnings "-register-all".
Import ListNotations.
Open Scope string_scope.
Open Scope list_scope.
Open Scope nat_scope.

(** ** Python built-ins on [str] *)

Module Py.

(** [str.isspace] on one character: TAB, LF, VT, FF, CR, FS, GS, RS, US,
    the space, NEL (133) and the no-break space (160). *)
Definition isspace (c : ascii) : bool :=
  let n := nat_of_ascii c in
  ((9 <=? n) && (n <=? 13)) || ((28 <=? n) && (n <=? 32)) || (n =? 133) || (n =? 160).

(** Truth value of a [str]: non-empty. *)
Definition nonempty (s : string) : bool :=
  match s with
  | EmptyString => false
  | String _ _ => true
  end.

(** [c in chars] for a one-character [c]. *)
Fixpoint char_in (c : ascii) (chars : string) : bool :=
  match chars with
  | EmptyString => false
  | String x chars' => Ascii.eqb c x || char_in c chars'
  end.

(** [s.lstrip(...)] and [s.rstrip(...)], over the predicate saying which
    characters are removed. *)
Fixpoint lstrip_by (drop : ascii -> bool) (s : string) : string :=
  match s with
  | EmptyString => EmptyString
  | String c s' => if drop c then lstrip_by drop s' else s
  end.

Fixpoint rstrip_by (drop : ascii -> bool) (s : string) : string :=
  match s with
  | EmptyString => EmptyString
  | String c s' =>
      match rstrip_by drop s' with
      | EmptyString => if drop c then EmptyString else String c EmptyString
      | r => String c r
      end
  end.

Definition strip_by (drop : ascii -> bool) (s : string) : string :=
  rstrip_by drop (lstrip_by drop s).

(** [s.strip()]: leading and trailing white space removed. *)
Definition strip (s : string) : string := strip_by isspace s.

(** [s.strip(chars)]: leading and trailing characters of [chars] removed. *)
Definition strip_chars (chars s : string) : string :=
  strip_by (fun c => char_in c chars) s.

(** [s.lower()], character by character: the letters A to Z, and the
    capital letters from 192 to 222 (215, the multiplication sign, is not
    one), move up by 32. *)
Definition lower_char (c : ascii) : ascii :=
  let n := nat_of_ascii c in
  if ((65 <=? n) && (n <=? 90)) || ((192 <=? n) && (n <=? 222) && negb (n =? 215))
  then ascii_of_nat (n + 32)
  else c.

Fixpoint lower (s : string) : string :=
  match s with
  | EmptyString => EmptyString
  | String c s' => String (lower_char c) (lower s')
  end.

(** [s.startswith(p)]. *)
Fixpoint startswith (p s : string) : bool :=
  match p, s with
  | EmptyString, _ => true
  | String _ _, EmptyString => false
  | String a p', String b s' => Ascii.eqb a b && startswith p' s'
  end.

(** [sub in s]. *)
Fixpoint contains (sub s : string) : bool :=
  startswith sub s ||
  match s with
  | EmptyString => false
  | String _ s' => contains sub s'
  end.

(** [s.find(sub)], with [None] for Python's [-1]. *)
Fixpoint find (sub s : string) : option nat :=
  if startswith sub s then Some 0
  else match s with
       | EmptyString => None
       | String _ s' => option_map S (find sub s')
       end.

(** The slices [s[:n]] and [s[n:]]. *)
Fixpoint take (n : nat) (s : string) : string :=
  match n, s with
  | S n', String c s' => String c (take n' s')
  | _, _ => EmptyString
  end.

Fixpoint drop (n : nat) (s : string) : string :=
  match n, s with
  | S n', String _ s' => drop n' s'
  | _, _ => s
  end.

(** [s.split(sep)] for a non-empty [sep]: cut at the leftmost occurrence
    and go on after it.  Every cut consumes at least one character, so
    [String.length s] rounds are enough. *)
Fixpoint split_rounds (rounds : nat) (sep s : string) : list string :=
  match rounds with
  | O => [s]
  | S rounds' =>
      match find sep s with
      | None => [s]
      | Some i => take i s :: split_rounds rounds' sep (drop (i + String.length sep) s)
      end
  end.

Definition split (sep s : string) : list string :=
  split_rounds (String.length s) sep s.

End Py.

(** ** Python dictionaries keyed by [str] *)

Definition dict (V : Type) : Type := list (string * V).

Section Dict.
Context {V : Type}.

(** [d.get(k)], with [None] when the key is missing. *)
Fixpoint dict_get (k : string) (d : dict V) : option V :=
  match d with
  | [] => None
  | (k', v) :: d' => if String.eqb k k' then Some v else dict_get k d'
  end.

(** [d[k] = v]: the value is replaced where the key is, a new key goes
    last. *)
Fixpoint dict_set (k : string) (v : V) (d : dict V) : dict V :=
  match d with
  | [] => [(k, v)]
  | (k', v') :: d' =>
      if String.eqb k k' then (k', v) :: d' else (k', v') :: dict_set k v d'
  end.

Definition dict_keys (d : dict V) : list string := map fst d.

(** [d.get(k, default)]. *)
Definition dict_get_default (k : string) (default : V) (d : dict V) : V :=
  match dict_get k d with
  | Some v => v
  | None => default
  end.
End Dict.

(** ** Exceptions *)

Inductive exn : Type :=
| NoSuchElementException
| StaleElementReferenceException
| WebDriverException
| JSONDecodeError
| TypeError
| AttributeError
| IndexError
| RecursionError
| ValueError
| ParserRejectedMarkup.

Inductive result (A : Type) : Type :=
| Ok (a : A)
| Raise (e : exn).
Arguments Ok {A} a.
Arguments Raise {A} e.

Definition bind {A B : Type} (r : result A) (k : A -> result B) : result B :=
  match r with
  | Ok a => k a
  | Raise e => Raise e
  end.

Notation "x <- r ;; k" := (bind r (fun x => k))
  (at level 61, r at next level, right associativity).

(** ** The rendered page, as Selenium shows it *)

Inductive By : Type := CSS_SELECTOR | XPATH | TAG_NAME | ID.

(** An element handle: reading [.text] and querying below the element are
    remote calls, and either may raise. *)
Inductive WebElement : Type :=
| mkWebElement (text : result string)
               (find_elements : By -> string -> result (list WebElement)).

Definition text (e : WebElement) : result string :=
  match e with mkWebElement t _ => t end.

Definition element_find_elements (e : WebElement) : By -> string -> result (list WebElement) :=
  match e with mkWebElement _ f => f end.

Record Driver : Type := mkDriver {
  find_elements : By -> string -> result (list WebElement)
}.

(** [driver.find_element]: the first match in document order, and
    [NoSuchElementException] when nothing matches. *)
Definition find_element (driver : Driver) (by_ : By) (selector : string) : result WebElement :=
  elements <- find_elements driver by_ selector ;;
  match elements with
  | element :: _ => Ok element
  | [] => Raise NoSuchElementException
  end.

(** ** extract_job_title *)

Definition title_selectors : list (By * string) :=
  [ (CSS_SELECTOR, "h1.iCIMS_JobsTable h2");
    (CSS_SELECTOR, ".iCIMS_Header");
    (CSS_SELECTOR, "h1");
    (CSS_SELECTOR, "h2.iCIMS_InfoMsg_Job");
    (XPATH, "//div[@class='iCIMS_JobsTable']//h2") ].

(** The body of the [try] for one selector: [Ok (Some title)] is the
    [return], [Ok None] falls out of the [if], [Raise] goes to [except]. *)
Definition title_attempt (driver : Driver) (by_ : By) (selector : string) : result (option string) :=
  element <- find_element driver by_ selector ;;
  raw <- text element ;;
  if Py.nonempty (Py.strip raw) then Ok (Some (Py.strip raw)) else Ok None.

Fixpoint extract_job_title_from (selectors : list (By * string)) (driver : Driver) : option string :=
  match selectors with
  | [] => None
  | (by_, selector) :: selectors' =>
      match title_attempt driver by_ selector with
      | Ok (Some title) => Some title
      | Ok None => extract_job_title_from selectors' driver
      | Raise _ => extract_job_title_from selectors' driver
      end
  end.

Definition extract_job_title (driver : Driver) : option string :=
  extract_job_title_from title_selectors driver.

(** ** extract_location *)

(** The [for elem in location_elements] loop. *)
Fixpoint location_loop (location_elements : list WebElement) : result (option string) :=
  match location_elements with
  | [] => Ok None
  | elem :: rest =>
      raw <- text elem ;;
      let text := Py.strip raw in
      if Py.contains "," text || Py.contains "Remote" (Py.lower text)
      then Ok (Some text)
      else location_loop rest
  end.

Definition extract_location (driver : Driver) : option string :=
  match (location_elements <- find_elements driver CSS_SELECTOR "dd" ;;
         location_loop location_elements) with
  | Ok found => found
  | Raise _ => None
  end.

(** ** extract_definition_lists *)

(** The mapping [additional_info] is updated in place, so what was stored
    before an exception is still there when [except] is reached: each loop
    returns the mapping together with the way it ended. *)
Fixpoint pairs_loop (pairs : list (WebElement * WebElement)) (additional_info : dict string)
  : dict string * result unit :=
  match pairs with
  | [] => (additional_info, Ok tt)
  | (dt, dd) :: pairs' =>
      match text dt with
      | Raise e => (additional_info, Raise e)
      | Ok raw_key =>
          match text dd with
          | Raise e => (additional_info, Raise e)
          | Ok raw_value =>
              let key := Py.strip raw_key in
              let value := Py.strip raw_value in
              pairs_loop pairs'
                (if Py.nonempty key && Py.nonempty value
                 then dict_set key value additional_info
                 else additional_info)
          end
      end
  end.

Fixpoint dls_loop (dls : list WebElement) (additional_info : dict string)
  : dict string * result unit :=
  match dls with
  | [] => (additional_info, Ok tt)
  | dl :: dls' =>
      match element_find_elements dl TAG_NAME "dt" with
      | Raise e => (additional_info, Raise e)
      | Ok dts =>
          match element_find_elements dl TAG_NAME "dd" with
          | Raise e => (additional_info, Raise e)
          | Ok dds =>
              match pairs_loop (combine dts dds) additional_info with
              | (additional_info', Ok _) => dls_loop dls' additional_info'
              | (additional_info', Raise e) => (additional_info', Raise e)
              end
          end
      end
  end.

Definition extract_definition_lists (driver : Driver) : dict string :=
  let additional_info := [] in
  match find_elements driver TAG_NAME "dl" with
  | Raise _ => additional_info
  | Ok dls => fst (dls_loop dls additional_info)
  end.

(** ** extract_description *)

Definition desc_selectors : list string :=
  [ ".iCIMS_InfoMsg.iCIMS_InfoField_Job";
    ".iCIMS_JobContent";
    "div[class*='JobDescription']";
    "div.iCIMS_Expandable_Container" ].

(** The [for elem in elements] loop. *)
Fixpoint description_loop (elements : list WebElement) : result (option string) :=
  match elements with
  | [] => Ok None
  | elem :: rest =>
      raw <- text elem ;;
      let text := Py.strip raw in
      if 100 <? String.length text then Ok (Some text) else description_loop rest
  end.

Definition description_attempt (driver : Driver) (selector : string) : result (option string) :=
  elements <- find_elements driver CSS_SELECTOR selector ;;
  description_loop elements.

Fixpoint extract_description_from (selectors : list string) (driver : Driver) : option string :=
  match selectors with
  | [] => None
  | selector :: selectors' =>
      match description_attempt driver selector with
      | Ok (Some text) => Some text
      | Ok None => extract_description_from selectors' driver
      | Raise _ => extract_description_from selectors' driver
      end
  end.

Definition extract_description (driver : Driver) : option string :=
  extract_description_from desc_selectors driver.

(** ** Python values, as [json.loads] builds them *)

Inductive pyval : Type :=
| PyNone
| PyBool (b : bool)
| PyInt (z : Z)
| PyFloat (f : float)
| PyStr (s : string)
| PyList (l : list pyval)
| PyDict (d : list (string * pyval)).

(** [bool(v)]. *)
Definition truthy (v : pyval) : bool :=
  match v with
  | PyNone => false
  | PyBool b => b
  | PyInt z => negb (Z.eqb z 0)
  | PyFloat f => negb (PrimFloat.eqb f 0%float)
  | PyStr s => Py.nonempty s
  | PyList l => match l with [] => false | _ :: _ => true end
  | PyDict d => match d with [] => false | _ :: _ => true end
  end.

(** [v == s] for a [str] literal [s]. *)
Definition py_eq_str (v : pyval) (s : string) : bool :=
  match v with
  | PyStr s' => String.eqb s' s
  | _ => false
  end.

(** [obj.get(key, default)]: only a [dict] has the method. *)
Definition py_get (obj : pyval) (key : string) (default : pyval) : result pyval :=
  match obj with
  | PyDict d => Ok (dict_get_default key default d)
  | _ => Raise AttributeError
  end.

(** [l[i]]. *)
Definition index {A : Type} (l : list A) (i : nat) : result A :=
  match nth_error l i with
  | Some x => Ok x
  | None => Raise IndexError
  end.

(** ** The parsed markup, as BeautifulSoup shows it *)

(** A [script] tag; [.string] is [None] when the tag has no single text
    child (an empty tag, for one). *)
Record ScriptTag : Type := mkScriptTag {
  script_string : option string
}.

(** [find_all_ld_json] is [soup.find_all('script', type='application/ld+json')]. *)
Record Soup : Type := mkSoup {
  find_all_ld_json : list ScriptTag
}.

(** ** extract_json_ld *)

Section JsonLd.

(** [json.loads] on a [str]: the value, or the exception raised, which is
    [JSONDecodeError] for a text that is not JSON, [RecursionError] for a
    nesting that is too deep and [ValueError] for a number that is too
    long. *)
Variable json_loads : string -> result pyval.

(** [repr] of a Python object. *)
Variable py_repr : pyval -> string.

(** [str(v)], which is also what an f-string field prints. *)
Definition py_str (v : pyval) : string :=
  match v with
  | PyStr s => s
  | _ => py_repr v
  end.

(** [json.loads(script.string)]. *)
Definition loads (s : option string) : result pyval :=
  match s with
  | None => Raise TypeError
  | Some s' => json_loads s'
  end.

(** The [if isinstance(location_data, dict)] block. *)
Definition location_block (location_data : pyval) (structured_data : dict pyval)
  : dict pyval * result unit :=
  match location_data with
  | PyDict location_dict =>
      let address := dict_get_default "address" (PyDict []) location_dict in
      match py_get address "addressLocality" (PyStr "") with
      | Raise e => (structured_data, Raise e)
      | Ok city =>
          match py_get address "addressRegion" (PyStr "") with
          | Raise e => (structured_data, Raise e)
          | Ok state =>
              (dict_set "location"
                 (PyStr (Py.strip_chars ", " (py_str city ++ ", " ++ py_str state)))
                 structured_data,
               Ok tt)
          end
      end
  | _ => (structured_data, Ok tt)
  end.

(** The body run for a JobPosting block, up to the [break].  The
    assignments already made stay in [structured_data] when a later line
    raises. *)
Definition job_posting_block (data : dict pyval) (structured_data : dict pyval)
  : dict pyval * result unit :=
  let structured_data := dict_set "title" (dict_get_default "title" PyNone data) structured_data in
  match py_get (dict_get_default "hiringOrganization" (PyDict []) data) "name" PyNone with
  | Raise e => (structured_data, Raise e)
  | Ok company =>
      let structured_data := dict_set "company" company structured_data in
      let structured_data :=
        dict_set "description" (dict_get_default "description" PyNone data) structured_data in
      let structured_data :=
        dict_set "posted_date" (dict_get_default "datePosted" PyNone data) structured_data in
      let structured_data :=
        dict_set "employment_type" (dict_get_default "employmentType" PyNone data) structured_data in
      let location_data := dict_get_default "jobLocation" (PyDict []) data in
      match location_block location_data structured_data with
      | (structured_data, Raise e) => (structured_data, Raise e)
      | (structured_data, Ok _) =>
          let salary_info := dict_get_default "baseSalary" (PyDict []) data in
          (if truthy salary_info
           then dict_set "salary" (PyStr (py_str salary_info)) structured_data
           else structured_data,
           Ok tt)
      end
  end.

(** The [for script in scripts] loop with its inner [try]. *)
Fixpoint scripts_loop (scripts : list ScriptTag) (structured_data : dict pyval)
  : dict pyval * result unit :=
  match scripts with
  | [] => (structured_data, Ok tt)
  | script :: scripts' =>
      match loads (script_string script) with
      | Raise JSONDecodeError => scripts_loop scripts' structured_data
      | Raise e => (structured_data, Raise e)
      | Ok (PyDict data) =>
          if py_eq_str (dict_get_default "@type" PyNone data) "JobPosting"
          then
            match job_posting_block data structured_data with
            | (structured_data', Raise JSONDecodeError) => scripts_loop scripts' structured_data'
            | outcome => outcome
            end
          else scripts_loop scripts' structured_data
      | Ok _ => scripts_loop scripts' structured_data
      end
  end.

Definition extract_json_ld (soup : Soup) : dict pyval :=
  let structured_data := [] in
  fst (scripts_loop (find_all_ld_json soup) structured_data).

(** ** scrape_icims_job, from the initialisation of [job_data] on *)

Definition of_optional (o : option string) : pyval :=
  match o with
  | Some s => PyStr s
  | None => PyNone
  end.

Definition of_additional_info (additional_info : dict string) : pyval :=
  PyDict (map (fun kv => (fst kv, PyStr (snd kv))) additional_info).

Definition initial_job_data (url now : string) : dict pyval :=
  [ ("url", PyStr url);
    ("scrape_timestamp", PyStr now);
    ("job_id", PyNone);
    ("job_title", PyNone);
    ("company", PyNone);
    ("location", PyNone);
    ("description", PyNone);
    ("posted_date", PyNone);
    ("employment_type", PyNone);
    ("additional_info", PyDict []);
    ("salary", PyNone) ].

(** The [if '/jobs/' in url] statement. *)
Definition job_id_step (url : string) (job_data : dict pyval) : result (dict pyval) :=
  if Py.contains "/jobs/" url
  then
    after <- index (Py.split "/jobs/" url) 1 ;;
    job_id <- index (Py.split "/" after) 0 ;;
    Ok (dict_set "job_id" (PyStr job_id) job_data)
  else Ok job_data.

(** The merge loop over [json_ld_data.items()]. *)
Definition merge_item (job_data : dict pyval) (item : string * pyval) : dict pyval :=
  let (key, value) := item in
  if truthy value && negb (truthy (dict_get_default key PyNone job_data))
  then dict_set key value job_data
  else job_data.

Definition merge (json_ld_data job_data : dict pyval) : dict pyval :=
  match json_ld_data with
  | [] => job_data
  | _ :: _ => fold_left merge_item json_ld_data job_data
  end.

(** The best-effort capture of the page text. *)
Definition full_page_text_step (driver : Driver) (job_data : dict pyval) : dict pyval :=
  match (body <- find_element driver TAG_NAME "body" ;; text body) with
  | Ok body_text => dict_set "full_page_text" (PyStr body_text) job_data
  | Raise _ => job_data
  end.

(** Step 4 of [scrape_icims_job]: [driver] is already inside the content
    frame, [soup] is the parsed page source and [now] is
    [datetime.now().isoformat()]. *)
Definition extract_job_details (url now : string) (driver : Driver) (soup : Soup)
  : result (dict pyval) :=
  let job_data := initial_job_data url now in
  job_data <- job_id_step url job_data ;;
  let job_data := dict_set "job_title" (of_optional (extract_job_title driver)) job_data in
  let job_data := dict_set "location" (of_optional (extract_location driver)) job_data in
  let job_data :=
    dict_set "additional_info" (of_additional_info (extract_definition_lists driver)) job_data in
  let job_data := dict_set "description" (of_optional (extract_description driver)) job_data in
  let json_ld_data := extract_json_ld soup in
  let job_data := merge json_ld_data job_data in
  let job_data := full_page_text_step driver job_data in
  Ok job_data.

(** [scrape_icims_job]: [page] is what steps 1 to 3 and the read of the
    page source give, an exception there or below ends in [return None]. *)
Definition scrape_icims_job (url now : string) (page : result (Driver * Soup))
  : option (dict pyval) :=
  match (p <- page ;; extract_job_details url now (fst p) (snd p)) with
  | Ok job_data => Some job_data
  | Raise _ => None
  end.

End JsonLd.

(** ** Vocabulary of the properties *)

(** What the page shows, in terms of the texts read from it. *)

Definition has_texts (elements : list WebElement) (raws : list string) : Prop :=
  Forall2 (fun element raw => text element = Ok raw) elements raws.

(** *** Title and description strategies *)

(** A title strategy misses when its query raises, matches nothing, or
    when the text of its first match cannot be read or is blank. *)
Definition title_miss (driver : Driver) (strategy : By * string) : Prop :=
  let (by_, selector) := strategy in
  (exists e, find_elements driver by_ selector = Raise e) \/
  find_elements driver by_ selector = Ok [] \/
  (exists element rest,
      find_elements driver by_ selector = Ok (element :: rest) /\
      ((exists e, text element = Raise e) \/
       (exists raw, text element = Ok raw /\ Py.strip raw = ""))).

Definition title_hit (driver : Driver) (strategy : By * string) (title : string) : Prop :=
  let (by_, selector) := strategy in
  exists element rest raw,
    find_elements driver by_ selector = Ok (element :: rest) /\
    text element = Ok raw /\ Py.strip raw = title /\ title <> "".

(** A candidate of a description strategy is short when its trimmed text
    has at most 100 characters, long otherwise. *)
Definition short_text (element : WebElement) : Prop :=
  exists raw, text element = Ok raw /\ String.length (Py.strip raw) <= 100.

Definition long_text (element : WebElement) (trimmed : string) : Prop :=
  exists raw, text element = Ok raw /\ Py.strip raw = trimmed /\ 100 < String.length trimmed.

(** A description strategy misses when its query raises, when all its
    matches are short (none, for one), or when a read raises before a long
    match is met. *)
Definition description_miss (driver : Driver) (selector : string) : Prop :=
  (exists e, find_elements driver CSS_SELECTOR selector = Raise e) \/
  (exists elements,
      find_elements driver CSS_SELECTOR selector = Ok elements /\
      (Forall short_text elements \/
       exists short element rest e,
         elements = short ++ element :: rest /\
         Forall short_text short /\ text element = Raise e)).

Definition description_hit (driver : Driver) (selector : string) (trimmed : string) : Prop :=
  exists short element rest,
    find_elements driver CSS_SELECTOR selector = Ok (short ++ element :: rest) /\
    Forall short_text short /\ long_text element trimmed.

(** The first text, in document order, whose trimmed form is longer than
    100 characters. *)
Definition first_long (raws : list string) : option string :=
  List.find (fun trimmed => 100 <? String.length trimmed) (map Py.strip raws).

(** *** Location *)

(** The first text, in document order, whose trimmed form has a comma. *)
Definition first_with_comma (raws : list string) : option string :=
  List.find (fun trimmed => Py.contains "," trimmed) (map Py.strip raws).

(** The first text whose trimmed form has a comma or, whatever the case of
    its letters, the word remote. *)
Definition first_comma_or_remote (raws : list string) : option string :=
  List.find (fun trimmed => Py.contains "," trimmed || Py.contains "remote" (Py.lower trimmed))
            (map Py.strip raws).

(** *** Label/value groups *)

(** A group is the raw texts of its labels and of its values. *)
Definition group : Type := (list string * list string)%type.

Definition is_group (dl : WebElement) (g : group) : Prop :=
  exists dts dds,
    element_find_elements dl TAG_NAME "dt" = Ok dts /\
    element_find_elements dl TAG_NAME "dd" = Ok dds /\
    has_texts dts (fst g) /\ has_texts dds (snd g).

Definition shows_groups (driver : Driver) (groups : list group) : Prop :=
  exists dls,
    find_elements driver TAG_NAME "dl" = Ok dls /\ Forall2 is_group dls groups.

(** The i-th label with the i-th value, up to the end of the shorter list. *)
Definition positional_pairs (labels values : list string) : list (string * string) :=
  map (fun i => (nth i labels "", nth i values ""))
      (seq 0 (Nat.min (List.length labels) (List.length values))).

Definition trim_pair (pair : string * string) : string * string :=
  (Py.strip (fst pair), Py.strip (snd pair)).

Definition both_nonempty (pair : string * string) : bool :=
  Py.nonempty (fst pair) && Py.nonempty (snd pair).

(** The pairs kept out of raw ones: trimmed, both sides non-empty. *)
Definition kept (raw_pairs : list (string * string)) : list (string * string) :=
  filter both_nonempty (map trim_pair raw_pairs).

(** The pairs of a page, group after group. *)
Definition retained_pairs (groups : list group) : list (string * string) :=
  flat_map (fun g : group => kept (positional_pairs (fst g) (snd g))) groups.

(** The value of the last pair with a given label. *)
Definition last_value (label : string) (pairs : list (string * string)) : option string :=
  dict_get label (rev pairs).

(** The labels in the order of their first occurrence. *)
Fixpoint first_occurrences (labels : list string) : list string :=
  match labels with
  | [] => []
  | label :: labels' =>
      label :: filter (fun l => negb (String.eqb l label)) (first_occurrences labels')
  end.

(** A label that is not among the given keys. *)
Definition not_among (keys : list string) (label : string) : bool :=
  negb (existsb (String.eqb label) keys).

(** The mapping built by storing pairs one after the other. *)
Definition store_all (pairs : list (string * string)) (info : dict string) : dict string :=
  fold_left (fun acc pair => dict_set (fst pair) (snd pair) acc) pairs info.

(** A scan of label/value pairs that raises after [read] was read. *)
Inductive pairs_fail_after : list (WebElement * WebElement) -> list (string * string) -> Prop :=
| fail_label dt dd rest e :
    text dt = Raise e ->
    pairs_fail_after ((dt, dd) :: rest) []
| fail_value dt dd rest raw_key e :
    text dt = Ok raw_key -> text dd = Raise e ->
    pairs_fail_after ((dt, dd) :: rest) []
| fail_later dt dd rest raw_key raw_value read :
    text dt = Ok raw_key -> text dd = Ok raw_value ->
    pairs_fail_after rest read ->
    pairs_fail_after ((dt, dd) :: rest) ((raw_key, raw_value) :: read).

(** A scan of label/value pairs that reads them all. *)
Definition pairs_read (pairs : list (WebElement * WebElement)) (read : list (string * string)) : Prop :=
  Forall2 (fun p r => text (fst p) = Ok (fst r) /\ text (snd p) = Ok (snd r)) pairs read.

(** A scan of groups that raises after [read] was read. *)
Inductive groups_fail_after : list WebElement -> list (string * string) -> Prop :=
| fail_labels_query dl rest e :
    element_find_elements dl TAG_NAME "dt" = Raise e ->
    groups_fail_after (dl :: rest) []
| fail_values_query dl rest dts e :
    element_find_elements dl TAG_NAME "dt" = Ok dts ->
    element_find_elements dl TAG_NAME "dd" = Raise e ->
    groups_fail_after (dl :: rest) []
| fail_inside dl rest dts dds read :
    element_find_elements dl TAG_NAME "dt" = Ok dts ->
    element_find_elements dl TAG_NAME "dd" = Ok dds ->
    pairs_fail_after (combine dts dds) read ->
    groups_fail_after (dl :: rest) read
| fail_in_later_group dl rest dts dds read read' :
    element_find_elements dl TAG_NAME "dt" = Ok dts ->
    element_find_elements dl TAG_NAME "dd" = Ok dds ->
    pairs_read (combine dts dds) read ->
    groups_fail_after rest read' ->
    groups_fail_after (dl :: rest) (read ++ read').

(** *** The canonical record *)

Definition canonical_keys : list string :=
  [ "url"; "scrape_timestamp"; "job_id"; "job_title"; "company"; "location";
    "description"; "posted_date"; "employment_type"; "salary"; "additional_info" ].

(** The optional field with the text of the whole page. *)
Definition full_text_key : string := "full_page_text".

(** The truth value of [d.get(k)]. *)
Definition filled (key : string) (job_data : dict pyval) : bool :=
  truthy (dict_get_default key PyNone job_data).

(** *** The identifier as the claim words it *)





(** *** Structured data *)

(** The keys the structured-data extractor stores under. *)
Definition structured_keys : list string :=
  [ "title"; "company"; "description"; "posted_date"; "employment_type"; "location"; "salary" ].

(** A block is passed over when [json.loads] raises [JSONDecodeError] on
    its text, or gives something that is not a JobPosting object. *)
Definition passed_over (json_loads : string -> result pyval) (script : ScriptTag) : Prop :=
  exists s, script_string script = Some s /\
    (json_loads s = Raise JSONDecodeError \/
     exists data, json_loads s = Ok data /\
       match data with
       | PyDict d => py_eq_str (dict_get_default "@type" PyNone d) "JobPosting" = false
       | _ => True
       end).

Definition is_job_posting (json_loads : string -> result pyval) (script : ScriptTag)
           (data : dict pyval) : Prop :=
  exists s, script_string script = Some s /\ json_loads s = Ok (PyDict data) /\
    py_eq_str (dict_get_default "@type" PyNone data) "JobPosting" = true.

(** The object under [key], an empty one when the key is missing. *)
Definition sub_object (key : string) (data : dict pyval) : pyval :=
  dict_get_default key (PyDict []) data.

(** The nesting the derivation relies on: the organization, and the
    address of a location object, are objects when they are there. *)
Definition is_object (v : pyval) : Prop :=
  exists d, v = PyDict d.

Definition well_nested (data : dict pyval) : Prop :=
  is_object (sub_object "hiringOrganization" data) /\
  match sub_object "jobLocation" data with
  | PyDict location => is_object (sub_object "address" location)
  | _ => True
  end.

(** The location as the statement of the claim words it: the two parts
    around a comma and a space, and a trailing comma-space removed when a
    part is empty. *)
Definition without_trailing_separator (s : string) : string :=
  let n := String.length s in
  if String.eqb (Py.drop (n - 2) s) ", " then Py.take (n - 2) s else s.

Definition location_as_worded (city region : string) : string :=
  let composed := (city ++ ", " ++ region)%string in
  if negb (Py.nonempty city) || negb (Py.nonempty region)
  then without_trailing_separator composed
  else composed.

(** The location as composed by the code: commas and spaces removed at
    both ends. *)
Definition location_of (city region : string) : string :=
  Py.strip_chars ", " (city ++ ", " ++ region)%string.

Section Derived.
Variable py_repr : pyval -> string.

Definition field (key : string) (data : dict pyval) : pyval :=
  dict_get_default key PyNone data.

Definition nested_field (outer inner : string) (default : pyval) (data : dict pyval) : pyval :=
  match sub_object outer data with
  | PyDict d => dict_get_default inner default d
  | _ => default
  end.

(** The fields derived from a JobPosting object, in the order they are
    stored. *)
Definition derived_fields (data : dict pyval) : dict pyval :=
  [ ("title", field "title" data);
    ("company", nested_field "hiringOrganization" "name" PyNone data);
    ("description", field "description" data);
    ("posted_date", field "datePosted" data);
    ("employment_type", field "employmentType" data) ]
  ++ match sub_object "jobLocation" data with
     | PyDict location =>
         let city := nested_field "address" "addressLocality" (PyStr "") location in
         let region := nested_field "address" "addressRegion" (PyStr "") location in
         [ ("location", PyStr (location_of (py_str py_repr city) (py_str py_repr region))) ]
     | _ => []
     end
  ++ (if truthy (sub_object "baseSalary" data)
      then [ ("salary", PyStr (py_str py_repr (sub_object "baseSalary" data))) ]
      else []).
End Derived.

(** ** Sample pages and documents *)

Definition By_eqb (a b : By) : bool :=
  match a, b with
  | CSS_SELECTOR, CSS_SELECTOR | XPATH, XPATH | TAG_NAME, TAG_NAME | ID, ID => true
  | _, _ => false
  end.

(** An element with a text and nothing below it. *)
Definition leaf (raw : string) : WebElement :=
  mkWebElement (Ok raw) (fun _ _ => Ok []).

(** An element that went stale: reading it raises. *)
Definition stale : WebElement :=
  mkWebElement (Raise StaleElementReferenceException)
               (fun _ _ => Raise StaleElementReferenceException).

(** A [dl] element with the given [dt] and [dd] children. *)
Definition dl_element (dts dds : list WebElement) : WebElement :=
  mkWebElement (Ok "")
    (fun by_ tag =>
       match by_ with
       | TAG_NAME =>
           if String.eqb tag "dt" then Ok dts
           else if String.eqb tag "dd" then Ok dds
           else Ok []
       | _ => Ok []
       end).

(** A page that answers the listed queries and matches nothing else. *)
Fixpoint answer (answers : list (By * string * list WebElement)) (by_ : By) (selector : string)
  : result (list WebElement) :=
  match answers with
  | [] => Ok []
  | (by', selector', elements) :: answers' =>
      if By_eqb by_ by' && String.eqb selector selector'
      then Ok elements
      else answer answers' by_ selector
  end.

Definition page (answers : list (By * string * list WebElement)) : Driver :=
  mkDriver (answer answers).

(** A text of [n] letters. *)
Fixpoint letters (n : nat) : string :=
  match n with
  | O => ""
  | S n' => String "x" (letters n')
  end.

(** A page whose header is blank, with two headings and two content
    blocks, the second one of 101 letters. *)
Definition fallback_page : Driver :=
  page [ (CSS_SELECTOR, ".iCIMS_Header", [leaf "   "]);
         (CSS_SELECTOR, "h1", [leaf " Data Analyst "; leaf "Careers"]);
         (CSS_SELECTOR, ".iCIMS_JobContent", [leaf "Overview"; leaf (letters 101)]) ].

(** A page with content blocks of 100, 101 and 300 letters. *)
Definition gate_page : Driver :=
  page [ (CSS_SELECTOR, ".iCIMS_JobContent",
          [leaf (letters 100); leaf (" " ++ letters 101); leaf (letters 300)]) ].

(** The double quote, and a JSON string literal without escapes. *)
Definition dq : string := String "034"%char "".

Definition quoted (s : string) : string := (dq ++ s ++ dq)%string.

(** The member [key: value] of a JSON object, [value] being JSON text. *)
Definition member (key value : string) : string := (quoted key ++ ": " ++ value)%string.

(** [{"@type": "JobPosting", "title": "Data Analyst"}] *)
Definition posting_with_title_text : string :=
  ("{" ++ member "@type" (quoted "JobPosting") ++ ", "
       ++ member "title" (quoted "Data Analyst") ++ "}")%string.

Definition posting_with_title : dict pyval :=
  [ ("@type", PyStr "JobPosting"); ("title", PyStr "Data Analyst") ].

(** [{"@type": "JobPosting", "datePosted": "2025-10-01"}] *)
Definition posting_with_date_text : string :=
  ("{" ++ member "@type" (quoted "JobPosting") ++ ", "
       ++ member "datePosted" (quoted "2025-10-01") ++ "}")%string.

Definition posting_with_date : dict pyval :=
  [ ("@type", PyStr "JobPosting"); ("datePosted", PyStr "2025-10-01") ].

(** [{"@type": "JobPosting", "jobLocation": {"address": {"addressRegion": "TX"}}}] *)
Definition posting_in_texas_text : string :=
  ("{" ++ member "@type" (quoted "JobPosting") ++ ", "
       ++ member "jobLocation"
            ("{" ++ member "address" ("{" ++ member "addressRegion" (quoted "TX") ++ "}") ++ "}")
       ++ "}")%string.

Definition posting_in_texas : dict pyval :=
  [ ("@type", PyStr "JobPosting");
    ("jobLocation", PyDict [ ("address", PyDict [ ("addressRegion", PyStr "TX") ]) ]) ].

(** [{"@type": "JobPosting", "title": "Data Analyst",
      "hiringOrganization": {"name": "Acme Corp"}, "datePosted": "2025-10-01",
      "jobLocation": {"address": {"addressLocality": "Austin", "addressRegion": "TX"}},
      "baseSalary": {"currency": "USD"}}] *)
Definition full_posting_text : string :=
  ("{" ++ member "@type" (quoted "JobPosting") ++ ", "
       ++ member "title" (quoted "Data Analyst") ++ ", "
       ++ member "hiringOrganization" ("{" ++ member "name" (quoted "Acme Corp") ++ "}") ++ ", "
       ++ member "datePosted" (quoted "2025-10-01") ++ ", "
       ++ member "jobLocation"
            ("{" ++ member "address"
                      ("{" ++ member "addressLocality" (quoted "Austin") ++ ", "
                           ++ member "addressRegion" (quoted "TX") ++ "}") ++ "}") ++ ", "
       ++ member "baseSalary" ("{" ++ member "currency" (quoted "USD") ++ "}")
       ++ "}")%string.

Definition full_posting : dict pyval :=
  [ ("@type", PyStr "JobPosting");
    ("title", PyStr "Data Analyst");
    ("hiringOrganization", PyDict [ ("name", PyStr "Acme Corp") ]);
    ("datePosted", PyStr "2025-10-01");
    ("jobLocation",
     PyDict [ ("address", PyDict [ ("addressLocality", PyStr "Austin");
                                   ("addressRegion", PyStr "TX") ]) ]);
    ("baseSalary", PyDict [ ("currency", PyStr "USD") ]) ].

(** [{"@type": "Organization"}] *)
Definition organization_text : string :=
  ("{" ++ member "@type" (quoted "Organization") ++ "}")%string.

Definition organization : dict pyval := [ ("@type", PyStr "Organization") ].

(** A text that is not JSON. *)
Definition broken_text : string := "{ not json".

(** [json.loads] on the documents above; [broken_text] does not decode,
    and no other text is given to it below. *)
Definition sample_loads (s : string) : result pyval :=
  if String.eqb s posting_with_title_text then Ok (PyDict posting_with_title)
  else if String.eqb s posting_with_date_text then Ok (PyDict posting_with_date)
  else if String.eqb s posting_in_texas_text then Ok (PyDict posting_in_texas)
  else if String.eqb s full_posting_text then Ok (PyDict full_posting)
  else if String.eqb s organization_text then Ok (PyDict organization)
  else Raise JSONDecodeError.

(** [repr] on [None], booleans, and lists and dicts of plain strings (no
    quote, backslash or control character in them); numbers do not occur
    in the documents above. *)
Fixpoint sample_repr (v : pyval) : string :=
  match v with
  | PyNone => "None"
  | PyBool true => "True"
  | PyBool false => "False"
  | PyInt _ => ""
  | PyFloat _ => ""
  | PyStr s => "'" ++ s ++ "'"
  | PyList l =>
      "[" ++ (fix items (l : list pyval) : string :=
                match l with
                | [] => ""
                | [x] => sample_repr x
                | x :: l' => sample_repr x ++ ", " ++ items l'
                end) l ++ "]"
  | PyDict d =>
      "{" ++ (fix items (d : list (string * pyval)) : string :=
                match d with
                | [] => ""
                | [(k, x)] => "'" ++ k ++ "': " ++ sample_repr x
                | (k, x) :: d' => "'" ++ k ++ "': " ++ sample_repr x ++ ", " ++ items d'
                end) d ++ "}"
  end%string.

Definition script (s : string) : ScriptTag := mkScriptTag (Some s).

(** A [script] tag without a text child. *)
Definition empty_script : ScriptTag := mkScriptTag None.



(** The address of the posting in [main]. *)
Definition main_url : string :=
  "https://careers-aeieng.icims.com/jobs/5417/engineering-data-analyst/job?mobile=false&width=1920&height=500&bga=true&needsRedirect=false&jan1offset=330&jun1offset=330".

(** A page with two groups: three labels over two values, then a label
    that is also in the first group and a label whose value is blank. *)
Definition two_groups : list group :=
  [ ([" Department "; "Shift"; "Team"], ["Engineering"; " Day"]);
    (["Department"; "Site"], ["Data"; "  "]) ].

Definition two_groups_page : Driver :=
  page [ (TAG_NAME, "dl",
          map (fun g : group => dl_element (map leaf (fst g)) (map leaf (snd g))) two_groups) ].

(** A page whose first group reads well and whose second group has a
    stale value element under its second label. *)
Definition stale_page : Driver :=
  page [ (TAG_NAME, "dl",
          [ dl_element [leaf "Department"] [leaf "Engineering"];
            dl_element [leaf "Shift"; leaf "Team"; leaf "Site"] [leaf "Day"; stale; leaf "Austin"] ]) ].

(** A page on which the query for the groups raises. *)
Definition broken_page : Driver :=
  mkDriver (fun _ _ => Raise WebDriverException).

(** A record after the DOM phase, with a location and without a company,
    and a structured-data result with both. *)
Definition dom_record : dict pyval :=
  [ ("job_title", PyStr "Data Analyst"); ("company", PyNone); ("location", PyStr "Austin, TX") ].

Definition structured_result : dict pyval :=
  [ ("title", PyNone); ("company", PyStr "Acme Corp"); ("location", PyStr "Remote") ].

(** The time of the sample runs. *)
Definition sample_now : string := "2025-10-06T12:00:00".

(** The page of the end-to-end run: the first title strategy matches a
    blank element, the third one a heading; one value element and one
    group. *)
Definition end_to_end_page : Driver :=
  page [ (CSS_SELECTOR, "h1.iCIMS_JobsTable h2", [leaf ""]);
         (CSS_SELECTOR, "h1", [leaf "Data Analyst"]);
         (CSS_SELECTOR, "dd", [leaf "Remote - US"]);
         (TAG_NAME, "dl", [dl_element [leaf "Department"] [leaf "Engineering"]]) ].

(** ** scrape_icims_job, whole: the browser session around the extraction *)

(** The browser of one run.  Each field is the outcome of one call of
    [scrape_icims_job]; [frame] answers the queries made once the driver is
    inside the content frame. *)
Record Browser : Type := mkBrowser {
  launch : result unit;            (* setup_chrome_driver() *)
  get : string -> result unit;     (* driver.get(url) *)
  wait_for_frame : result unit;    (* wait.until(EC.presence_of_element_located(...)) *)
  switch_to_frame : result unit;   (* driver.switch_to.frame(iframe) *)
  page_source : result string;     (* driver.page_source *)
  frame : Driver;
  quit : result unit               (* driver.quit() *)
}.

Section Session.
Variable json_loads : string -> result pyval.
Variable py_repr : pyval -> string.

(** [BeautifulSoup(page_source, 'html.parser')]: the parsed markup, or the
    exception raised when the parser rejects the source. *)
Variable parse_html : string -> result Soup.

(** The [try] block after the driver is there, line by line. *)
Definition session_body (url now : string) (browser : Browser) : result (dict pyval) :=
  _ <- get browser url ;;
  _ <- wait_for_frame browser ;;
  _ <- switch_to_frame browser ;;
  let driver := frame browser in
  let job_data := initial_job_data url now in
  job_data <- job_id_step url job_data ;;
  source <- page_source browser ;;
  soup <- parse_html source ;;
  let job_data := dict_set "job_title" (of_optional (extract_job_title driver)) job_data in
  let job_data := dict_set "location" (of_optional (extract_location driver)) job_data in
  let job_data :=
    dict_set "additional_info" (of_additional_info (extract_definition_lists driver)) job_data in
  let job_data := dict_set "description" (of_optional (extract_description driver)) job_data in
  let json_ld_data := extract_json_ld json_loads py_repr soup in
  let job_data := merge json_ld_data job_data in
  let job_data := full_page_text_step driver job_data in
  Ok job_data.

(** The whole function with its [except] and [finally]: whether
    [driver.quit()] was called, and what the call gives, a returned value
    or the exception that [quit] raised in the [finally] block. *)
Definition scrape_session (url now : string) (browser : Browser)
  : bool * result (option (dict pyval)) :=
  match launch browser with
  | Raise _ => (false, Ok None)
  | Ok _ =>
      let returned :=
        match session_body url now browser with
        | Ok job_data => Some job_data
        | Raise _ => None
        end in
      match quit browser with
      | Ok _ => (true, Ok returned)
      | Raise e => (true, Raise e)
      end
  end.

(** What the steps before the extraction give: the view of the frame and
    the parsed source, or the first exception, the one of the parser
    included. *)
Definition page_of (url : string) (browser : Browser) : result (Driver * Soup) :=
  _ <- launch browser ;;
  _ <- get browser url ;;
  _ <- wait_for_frame browser ;;
  _ <- switch_to_frame browser ;;
  source <- page_source browser ;;
  soup <- parse_html source ;;
  Ok (frame browser, soup).

End Session.

(** ** More vocabulary *)

(** A call that did not raise. *)
Definition succeeded {A : Type} (r : result A) : Prop := exists a, r = Ok a.

(** The record before the merge, given the record left by the parse of the
    address. *)
Definition dom_phase (driver : Driver) (parsed : dict pyval) : dict pyval :=
  dict_set "description" (of_optional (extract_description driver))
    (dict_set "additional_info" (of_additional_info (extract_definition_lists driver))
       (dict_set "location" (of_optional (extract_location driver))
          (dict_set "job_title" (of_optional (extract_job_title driver)) parsed))).

(** A text without white space at its ends. *)
Definition trimmed (s : string) : Prop := Py.strip s = s.

(** An entry whose label and value are non-empty and trimmed. *)
Definition clean_entry (entry : string * string) : Prop :=
  fst entry <> "" /\ snd entry <> "" /\ trimmed (fst entry) /\ trimmed (snd entry).

(** The structured value under a key when it is true, [None] otherwise. *)
Definition gap_filler (key : string) (json_ld_data : dict pyval) : pyval :=
  let value := dict_get_default key PyNone json_ld_data in
  if truthy value then value else PyNone.

(** ** More sample pages and documents *)

(** A page whose second value element went stale, before an address. *)
Definition stale_value_page : Driver :=
  page [ (CSS_SELECTOR, "dd", [leaf "Engineering"; stale; leaf "Austin, TX"]) ].

(** A page with the word and no comma, then a text with a comma. *)
Definition remote_then_comma_page : Driver :=
  page [ (CSS_SELECTOR, "dd", [leaf "Remote"; leaf " Austin, TX "]) ].

(** A page with texts without a comma. *)
Definition no_comma_page : Driver :=
  page [ (CSS_SELECTOR, "dd", [leaf "Remote"; leaf "Full time"]) ].

(** A posting whose organization is a text, and one whose address is. *)
Definition posting_by_name : dict pyval :=
  [ ("@type", PyStr "JobPosting");
    ("title", PyStr "Data Analyst");
    ("hiringOrganization", PyStr "Acme Corp");
    ("datePosted", PyStr "2025-10-01") ].

Definition posting_by_name_text : string := "posting by name".

Definition posting_at_text_address : dict pyval :=
  [ ("@type", PyStr "JobPosting");
    ("title", PyStr "Data Analyst");
    ("hiringOrganization", PyDict [ ("name", PyStr "Acme Corp") ]);
    ("jobLocation", PyDict [ ("address", PyStr "Austin, TX") ]);
    ("baseSalary", PyDict [ ("currency", PyStr "USD") ]) ].

Definition posting_at_text_address_text : string := "posting at text address".

(** A parser that knows the two postings above by a name, and the sample
    documents by their text. *)
Definition named_loads (s : string) : result pyval :=
  if String.eqb s posting_by_name_text then Ok (PyDict posting_by_name)
  else if String.eqb s posting_at_text_address_text then Ok (PyDict posting_at_text_address)
  else sample_loads s.

(** A text of [n] opening brackets, and a parser that takes 2000 of them
    for too deep a nesting. *)
Fixpoint brackets (n : nat) : string :=
  match n with
  | O => ""
  | S n' => String "[" (brackets n')
  end.

Definition deep_text : string := brackets 2000.

Definition deep_loads (s : string) : result pyval :=
  if String.eqb s deep_text then Raise RecursionError else sample_loads s.

(** A page with a title, a place, a group, a long description and a body. *)
Definition whole_page : Driver :=
  page [ (CSS_SELECTOR, "h1", [leaf "Data Analyst"]);
         (CSS_SELECTOR, "dd", [leaf "Austin, TX"]);
         (TAG_NAME, "dl", [dl_element [leaf "Department"] [leaf "Engineering"]]);
         (CSS_SELECTOR, ".iCIMS_JobContent", [leaf (letters 120)]);
         (TAG_NAME, "body", [leaf " Data Analyst Austin, TX "]) ].

(** A page with nothing that the extractors look for. *)
Definition bare_page : Driver := page [].

Definition full_posting_soup : Soup := mkSoup [script full_posting_text].

(** A browser for which every call succeeds, and variants of it. *)
Definition good_browser : Browser :=
  mkBrowser (Ok tt) (fun _ => Ok tt) (Ok tt) (Ok tt) (Ok "<html>") whole_page (Ok tt).

Definition browser_without_driver : Browser :=
  mkBrowser (Raise WebDriverException) (fun _ => Ok tt) (Ok tt) (Ok tt) (Ok "<html>")
            whole_page (Ok tt).

Definition browser_without_frame : Browser :=
  mkBrowser (Ok tt) (fun _ => Ok tt) (Raise WebDriverException) (Ok tt) (Ok "<html>")
            whole_page (Ok tt).

Definition browser_stuck_open : Browser :=
  mkBrowser (Ok tt) (fun _ => Ok tt) (Ok tt) (Ok tt) (Ok "<html>") whole_page
            (Raise WebDriverException).

(** A source that the parser rejects. *)
Definition rejected_source : string := "<![foo bar]>".

(** A parser of pages that rejects [rejected_source] and finds the full
    posting in every other page. *)
Definition sample_parse_html (source : string) : result Soup :=
  if String.eqb source rejected_source then Raise ParserRejectedMarkup
  else Ok full_posting_soup.

Definition browser_with_rejected_source : Browser :=
  mkBrowser (Ok tt) (fun _ => Ok tt) (Ok tt) (Ok tt) (Ok rejected_source) whole_page (Ok tt).

(** The record of the run on the whole page with the full posting. *)
Definition whole_record : dict pyval :=
  Eval vm_compute in
    match scrape_icims_job sample_loads sample_repr main_url sample_now
                           (Ok (whole_page, full_posting_soup)) with
    | Some job_data => job_data
    | None => []
    end.

(** The record of the run on the bare page with the full posting. *)
Definition bare_record : dict pyval :=
  Eval vm_compute in
    match scrape_icims_job sample_loads sample_repr main_url sample_now
                           (Ok (bare_page, full_posting_soup)) with
    | Some job_data => job_data
    | None => []
    end.

(** * Properties *)

(** ** Facts about the built-ins *)

Section StringFacts.


Lemma string_app_assoc (a b c : string) : ((a ++ b) ++ c)%string = (a ++ b ++ c)%string.
Proof. induction a as [|x a IH]; simpl; [reflexivity | now rewrite IH]. Qed.

Lemma string_app_length (a b : string) :
  String.length (a ++ b) = String.length a + String.length b.
Proof. induction a as [|x a IH]; simpl; [reflexivity | now rewrite IH]. Qed.

Lemma lower_char_never_R (c : ascii) : Ascii.eqb "R" (Py.lower_char c) = false.
Proof. destruct c as [[] [] [] [] [] [] [] []]; reflexivity. Qed.

(** No lowered text holds the capitalised word. *)
Lemma Remote_not_in_lower (s : string) : Py.contains "Remote" (Py.lower s) = false.
Proof.
  induction s as [|c s IH]; [reflexivity|].
  cbn [Py.lower Py.contains Py.startswith].
  now rewrite lower_char_never_R, IH.
Qed.

Lemma contains_find (sub s : string) :
  Py.contains sub s = match Py.find sub s with Some _ => true | None => false end.
Proof.
  induction s as [|c s IH].
  - simpl. destruct (Py.startswith sub ""); reflexivity.
  - cbn [Py.contains Py.find].
    destruct (Py.startswith sub (String c s)); [reflexivity|].
    rewrite IH. simpl. destruct (Py.find sub s); reflexivity.
Qed.

Lemma startswith_length (p s : string) :
  Py.startswith p s = true -> String.length p <= String.length s.
Proof.
  revert s. induction p as [|a p IH]; intros s E; [simpl; lia|].
  destruct s as [|b s]; [discriminate|]. simpl in E.
  apply andb_true_iff in E as [_ E]. apply IH in E. simpl. lia.
Qed.

Lemma find_bound (sub s : string) (i : nat) :
  Py.find sub s = Some i -> i + String.length sub <= String.length s.
Proof.
  revert i. induction s as [|c s IH]; intros i.
  - simpl. destruct sub; simpl; [intros [= <-]; simpl; lia | discriminate].
  - cbn [Py.find]. destruct (Py.startswith sub (String c s)) eqn:E.
    + intros [= <-]. now apply startswith_length in E.
    + destruct (Py.find sub s) as [j|]; [|discriminate].
      intros [= <-]. specialize (IH j eq_refl). simpl. lia.
Qed.





Lemma drop_length_le (n : nat) (s : string) :
  String.length (Py.drop n s) <= String.length s - n.
Proof.
  revert s. induction n as [|n IH]; intros s; simpl.
  - lia.
  - destruct s as [|c s]; simpl; [lia | apply IH].
Qed.

(** The first piece of a split, given enough rounds. *)
Lemma split_rounds_head (rounds : nat) (sep s : string) :
  sep <> "" -> String.length s <= rounds ->
  hd "" (Py.split_rounds rounds sep s) =
  match Py.find sep s with Some i => Py.take i s | None => s end.
Proof.
  intros Hsep Hlen. destruct rounds as [|rounds]; simpl.
  - destruct s; [|simpl in Hlen; lia].
    destruct sep; [contradiction|]. reflexivity.
  - destruct (Py.find sep s); reflexivity.
Qed.

Lemma split_rounds_nonempty (rounds : nat) (sep s : string) :
  Py.split_rounds rounds sep s <> [].
Proof. destruct rounds; simpl; [discriminate | destruct (Py.find sep s); discriminate]. Qed.

(** One cut of a split. *)
Lemma split_cut (sep s : string) (i : nat) :
  sep <> "" -> Py.find sep s = Some i ->
  exists rounds,
    String.length (Py.drop (i + String.length sep) s) <= rounds /\
    Py.split sep s =
    Py.take i s :: Py.split_rounds rounds sep (Py.drop (i + String.length sep) s).
Proof.
  intros Hsep Hfind. unfold Py.split.
  pose proof (find_bound _ _ _ Hfind) as Hb.
  assert (0 < String.length sep) by (destruct sep; [contradiction | simpl; lia]).
  destruct (String.length s) as [|n] eqn:En; [lia|].
  exists n. split.
  - pose proof (drop_length_le (i + String.length sep) s). lia.
  - simpl. now rewrite Hfind.
Qed.

Lemma find_in_empty (sep : string) : sep <> "" -> Py.find sep "" = None.
Proof. destruct sep; [contradiction | reflexivity]. Qed.

(** More rounds than the length of the text change nothing. *)
Lemma split_rounds_enough (n m : nat) (sep s : string) :
  sep <> "" -> String.length s <= n -> String.length s <= m ->
  Py.split_rounds n sep s = Py.split_rounds m sep s.
Proof.
  intros Hsep. revert m s. induction n as [|n IH]; intros m s Hn Hm.
  - destruct s; [|simpl in Hn; lia].
    destruct m; cbn [Py.split_rounds]; [reflexivity | now rewrite find_in_empty].
  - destruct m as [|m].
    + destruct s; [|simpl in Hm; lia]. cbn [Py.split_rounds]. now rewrite find_in_empty.
    + cbn [Py.split_rounds].
      destruct (Py.find sep s) as [i|] eqn:Hfind; [|reflexivity]. f_equal.
      assert (0 < String.length sep) by (destruct sep; [contradiction | simpl; lia]).
      pose proof (drop_length_le (i + String.length sep) s).
      apply IH; lia.
Qed.

(** [split] cuts at the leftmost separator and splits what follows. *)
Lemma split_unfold (sep s : string) :
  sep <> "" ->
  Py.split sep s =
  match Py.find sep s with
  | None => [s]
  | Some i => Py.take i s :: Py.split sep (Py.drop (i + String.length sep) s)
  end.
Proof.
  intros Hsep. destruct (Py.find sep s) as [i|] eqn:Hfind.
  - destruct (split_cut sep s i Hsep Hfind) as (rounds & Hrounds & ->). f_equal.
    unfold Py.split. apply split_rounds_enough; [exact Hsep | exact Hrounds | lia].
  - unfold Py.split.
  destruct (String.length s); cbn [Py.split_rounds]; [reflexivity | now rewrite Hfind].
Qed.




End StringFacts.

(** ** The identifier in the address *)

Lemma index_first {A : Type} (d : A) (l : list A) : l <> [] -> index l 0 = Ok (hd d l).
Proof. destruct l; [contradiction | reflexivity]. Qed.




Lemma job_id_step_total (url : string) (job_data : dict pyval) :
  exists job_data', job_id_step url job_data = Ok job_data'.
Proof.
  unfold job_id_step. rewrite contains_find.
  destruct (Py.find "/jobs/" url) as [i|] eqn:Hfind; [|eauto].
  destruct (split_cut "/jobs/" _ _ ltac:(discriminate) Hfind) as (rounds & _ & ->).
  change (index (?x :: ?l) 1) with (index l 0).
  rewrite (index_first "") by apply split_rounds_nonempty. cbn [bind].
  unfold Py.split. rewrite (index_first "") by apply split_rounds_nonempty.
  cbn [bind]. eauto.
Qed.

Lemma take_before_char (c : ascii) (s : string) (i : nat) :
  Py.find (String c "") s = Some i -> Py.contains (String c "") (Py.take i s) = false.
Proof.
  revert i. induction s as [|x s IH]; intros i; [discriminate|].
  cbn [Py.find Py.startswith]. rewrite andb_true_r.
  destruct (Ascii.eqb c x) eqn:E.
  - intros [= <-]. reflexivity.
  - destruct (Py.find (String c "") s) as [j|]; [|discriminate].
    intros [= <-]. cbn [Py.take Py.contains Py.startswith].
    now rewrite E, (IH j eq_refl).
Qed.






(** ** Location *)

Lemma location_loop_first_with_comma (elements : list WebElement) (raws : list string) :
  has_texts elements raws -> location_loop elements = Ok (first_with_comma raws).
Proof.
  induction 1 as [|element raw elements raws Hraw _ IH]; [reflexivity|].
  cbn [location_loop]. rewrite Hraw. cbn [bind].
  rewrite Remote_not_in_lower, orb_false_r.
  unfold first_with_comma in *. cbn [map List.find].
  destruct (Py.contains "," (Py.strip raw)); [reflexivity | exact IH].
Qed.

(** What the location extractor does on a readable page: the first value
    element with a comma, the test for the word never holding. *)
Lemma extract_location_first_with_comma (driver : Driver) (elements : list WebElement)
      (raws : list string) :
  find_elements driver CSS_SELECTOR "dd" = Ok elements ->
  has_texts elements raws ->
  extract_location driver = first_with_comma raws.
Proof.
  intros Hfind Htexts. unfold extract_location. rewrite Hfind. cbn [bind].
  now rewrite (location_loop_first_with_comma _ _ Htexts).
Qed.

(** C2. On a page whose only value element reads [Remote - US] the
    location extractor finds nothing, although that text holds the word
    remote and is the first such text of the page. *)
Theorem location_remote_us_not_found :
  extract_location (page [(CSS_SELECTOR, "dd", [leaf "Remote - US"])]) = None /\
  first_comma_or_remote ["Remote - US"] = Some "Remote - US".
Proof. split; reflexivity. Qed.

(** ** Fallback over the strategies of the title and of the description *)

Lemma title_attempt_hit (driver : Driver) (by_ : By) (selector title : string) :
  title_hit driver (by_, selector) title ->
  title_attempt driver by_ selector = Ok (Some title).
Proof.
  intros (element & rest & raw & Hfind & Hraw & Hstrip & Hne).
  unfold title_attempt, find_element. rewrite Hfind. cbn [bind]. rewrite Hraw. cbn [bind].
  rewrite Hstrip. destruct title; [contradiction | reflexivity].
Qed.

Lemma title_attempt_miss (driver : Driver) (by_ : By) (selector : string) :
  title_miss driver (by_, selector) ->
  forall title, title_attempt driver by_ selector <> Ok (Some title).
Proof.
  unfold title_attempt, find_element.
  intros [[e Hfind] | [Hfind | (element & rest & Hfind & Hread)]] title;
    rewrite Hfind; cbn [bind]; try discriminate.
  destruct Hread as [[e Hraw] | (raw & Hraw & Hstrip)]; rewrite Hraw; cbn [bind].
  - discriminate.
  - rewrite Hstrip. discriminate.
Qed.

Lemma title_attempt_outcome (driver : Driver) (by_ : By) (selector : string) :
  match title_attempt driver by_ selector with
  | Ok (Some title) => title_hit driver (by_, selector) title
  | _ => title_miss driver (by_, selector)
  end.
Proof.
  unfold title_attempt, find_element, title_hit, title_miss.
  destruct (find_elements driver by_ selector) as [[|element rest]|e] eqn:Hfind; cbn [bind].
  - right; left; reflexivity.
  - destruct (text element) as [raw|e] eqn:Hraw; cbn [bind].
    + destruct (Py.strip raw) as [|c s] eqn:Hstrip; cbn [Py.nonempty].
      * right; right. exists element, rest. split; [reflexivity|]. right. eauto.
      * exists element, rest, raw. repeat split; try assumption. discriminate.
    + right; right. exists element, rest. split; [reflexivity|]. left. eauto.
  - left. eauto.
Qed.

Lemma title_fallback (driver : Driver) (pre post : list (By * string))
      (strategy : By * string) (title : string) :
  Forall (title_miss driver) pre ->
  title_hit driver strategy title ->
  extract_job_title_from (pre ++ strategy :: post) driver = Some title.
Proof.
  intros Hpre Hhit. induction Hpre as [|[by_ selector] pre Hmiss _ IH].
  - destruct strategy as [by_ selector]. cbn [app extract_job_title_from].
    now rewrite (title_attempt_hit _ _ _ _ Hhit).
  - cbn [app extract_job_title_from].
    pose proof (title_attempt_miss _ _ _ Hmiss) as Hno.
    destruct (title_attempt driver by_ selector) as [[t|]|e]; try exact IH.
    now contradiction (Hno t).
Qed.

Lemma title_not_found (driver : Driver) (selectors : list (By * string)) :
  extract_job_title_from selectors driver = None <-> Forall (title_miss driver) selectors.
Proof.
  induction selectors as [|[by_ selector] selectors IH]; cbn [extract_job_title_from].
  - split; [constructor | reflexivity].
  - pose proof (title_attempt_outcome driver by_ selector) as Hout.
    pose proof (title_attempt_miss driver by_ selector) as Hno.
    destruct (title_attempt driver by_ selector) as [[t|]|e].
    + split; [discriminate|]. intros H. inversion H; subst.
      now contradiction (Hno ltac:(assumption) t).
    + rewrite IH. split; [now constructor | now inversion 1].
    + rewrite IH. split; [now constructor | now inversion 1].
Qed.

Lemma description_loop_skip (short rest : list WebElement) :
  Forall short_text short -> description_loop (short ++ rest) = description_loop rest.
Proof.
  induction 1 as [|element short (raw & Hraw & Hlen) _ IH]; [reflexivity|].
  cbn [app description_loop]. rewrite Hraw. cbn [bind].
  replace (100 <? String.length (Py.strip raw)) with false
    by (symmetry; apply Nat.ltb_ge; exact Hlen).
  exact IH.
Qed.

Lemma description_loop_long (element : WebElement) (rest : list WebElement) (trimmed : string) :
  long_text element trimmed -> description_loop (element :: rest) = Ok (Some trimmed).
Proof.
  intros (raw & Hraw & Hstrip & Hlen). cbn [description_loop]. rewrite Hraw. cbn [bind].
  rewrite Hstrip. now apply Nat.ltb_lt in Hlen as ->.
Qed.

Lemma description_loop_outcome (elements : list WebElement) :
  match description_loop elements with
  | Ok (Some trimmed) =>
      exists short element rest,
        elements = short ++ element :: rest /\ Forall short_text short /\ long_text element trimmed
  | Ok None => Forall short_text elements
  | Raise e =>
      exists short element rest,
        elements = short ++ element :: rest /\ Forall short_text short /\ text element = Raise e
  end.
Proof.
  induction elements as [|element elements IH]; cbn [description_loop]; [constructor|].
  destruct (text element) as [raw|e] eqn:Hraw; cbn [bind].
  - destruct (100 <? String.length (Py.strip raw)) eqn:Hlen.
    + apply Nat.ltb_lt in Hlen. exists [], element, elements.
      split; [reflexivity|]. split; [constructor|]. exists raw. auto.
    + apply Nat.ltb_ge in Hlen.
      assert (short_text element) as Hshort by (exists raw; auto).
      destruct (description_loop elements) as [[t|]|e].
      * destruct IH as (short & el & rest & -> & Hs & Hl).
        exists (element :: short), el, rest.
        split; [reflexivity|]. split; [now constructor | exact Hl].
      * now constructor.
      * destruct IH as (short & el & rest & -> & Hs & Hl).
        exists (element :: short), el, rest.
        split; [reflexivity|]. split; [now constructor | exact Hl].
  - exists [], element, elements.
    split; [reflexivity|]. split; [constructor | exact Hraw].
Qed.

Lemma description_attempt_hit (driver : Driver) (selector trimmed : string) :
  description_hit driver selector trimmed ->
  description_attempt driver selector = Ok (Some trimmed).
Proof.
  intros (short & element & rest & Hfind & Hshort & Hlong).
  unfold description_attempt. rewrite Hfind. cbn [bind].
  rewrite description_loop_skip by exact Hshort.
  now apply description_loop_long.
Qed.

Lemma description_attempt_miss (driver : Driver) (selector : string) :
  description_miss driver selector ->
  forall trimmed, description_attempt driver selector <> Ok (Some trimmed).
Proof.
  unfold description_attempt.
  intros [[e Hfind] | (elements & Hfind & Hscan)] trimmed; rewrite Hfind; cbn [bind].
  - discriminate.
  - destruct Hscan as [Hshort | (short & element & rest & e & -> & Hshort & Hraw)].
    + rewrite <- (app_nil_r elements), description_loop_skip by exact Hshort. discriminate.
    + rewrite description_loop_skip by exact Hshort.
      cbn [description_loop]. rewrite Hraw. discriminate.
Qed.

Lemma description_attempt_outcome (driver : Driver) (selector : string) :
  match description_attempt driver selector with
  | Ok (Some trimmed) => description_hit driver selector trimmed
  | _ => description_miss driver selector
  end.
Proof.
  unfold description_attempt, description_hit, description_miss.
  destruct (find_elements driver CSS_SELECTOR selector) as [elements|e] eqn:Hfind; cbn [bind].
  - pose proof (description_loop_outcome elements) as Hout.
    destruct (description_loop elements) as [[t|]|e].
    + destruct Hout as (short & element & rest & -> & Hs & Hl). eauto 6.
    + right. exists elements. auto.
    + right. exists elements. split; [reflexivity|]. right.
      destruct Hout as (short & element & rest & -> & Hs & Hl). eauto 8.
  - left. eauto.
Qed.

Lemma description_fallback (driver : Driver) (pre post : list string)
      (selector trimmed : string) :
  Forall (description_miss driver) pre ->
  description_hit driver selector trimmed ->
  extract_description_from (pre ++ selector :: post) driver = Some trimmed.
Proof.
  intros Hpre Hhit. induction Hpre as [|sel pre Hmiss _ IH].
  - cbn [app extract_description_from].
    now rewrite (description_attempt_hit _ _ _ Hhit).
  - cbn [app extract_description_from].
    pose proof (description_attempt_miss _ _ Hmiss) as Hno.
    destruct (description_attempt driver sel) as [[t|]|e]; try exact IH.
    now contradiction (Hno t).
Qed.

Lemma description_not_found (driver : Driver) (selectors : list string) :
  extract_description_from selectors driver = None <->
  Forall (description_miss driver) selectors.
Proof.
  induction selectors as [|selector selectors IH]; cbn [extract_description_from].
  - split; [constructor | reflexivity].
  - pose proof (description_attempt_outcome driver selector) as Hout.
    pose proof (description_attempt_miss driver selector) as Hno.
    destruct (description_attempt driver selector) as [[t|]|e].
    + split; [discriminate|]. intros H. inversion H; subst.
      now contradiction (Hno ltac:(assumption) t).
    + rewrite IH. split; [now constructor | now inversion 1].
    + rewrite IH. split; [now constructor | now inversion 1].
Qed.

(** C4. For every list of strategies of the title and of the description
    extractor: when the strategies before one that hits all miss (the
    query raises or matches nothing, or the match is blank, short or
    unreadable), the extractor returns the match of that strategy; and the
    extractor finds nothing exactly when every strategy misses. *)
Theorem fallback_order_respected (driver : Driver) :
  (forall pre strategy post title,
      Forall (title_miss driver) pre ->
      title_hit driver strategy title ->
      extract_job_title_from (pre ++ strategy :: post) driver = Some title) /\
  (forall selectors,
      extract_job_title_from selectors driver = None <->
      Forall (title_miss driver) selectors) /\
  (forall pre selector post trimmed,
      Forall (description_miss driver) pre ->
      description_hit driver selector trimmed ->
      extract_description_from (pre ++ selector :: post) driver = Some trimmed) /\
  (forall selectors,
      extract_description_from selectors driver = None <->
      Forall (description_miss driver) selectors).
Proof.
  repeat split.
  - intros. now apply title_fallback.
  - now apply title_not_found.
  - now apply title_not_found.
  - intros. now apply description_fallback.
  - now apply description_not_found.
  - now apply description_not_found.
Qed.

Lemma fallback_order_respected_witness :
  extract_job_title fallback_page = Some "Data Analyst" /\
  extract_description fallback_page = Some (letters 101) /\
  extract_job_title (page []) = None /\
  extract_description (page []) = None.
Proof.
  destruct (fallback_order_respected fallback_page) as (Htitle & _ & Hdescription & _).
  destruct (fallback_order_respected (page [])) as (_ & Hno_title & _ & Hno_description).
  split; [|split; [|split]].
  - apply (Htitle [ (CSS_SELECTOR, "h1.iCIMS_JobsTable h2"); (CSS_SELECTOR, ".iCIMS_Header") ]
                  (CSS_SELECTOR, "h1")).
    + constructor; [right; left; reflexivity|].
      constructor; [|constructor].
      right; right. exists (leaf "   "), []. split; [reflexivity|].
      right. exists "   ". split; reflexivity.
    + exists (leaf " Data Analyst "), [leaf "Careers"], " Data Analyst ".
      split; [reflexivity|]. split; [reflexivity|]. split; [reflexivity | discriminate].
  - apply (Hdescription [ ".iCIMS_InfoMsg.iCIMS_InfoField_Job" ] ".iCIMS_JobContent").
    + constructor; [|constructor].
      right. exists []. split; [reflexivity|]. left. constructor.
    + exists [leaf "Overview"], (leaf (letters 101)), [].
      split; [reflexivity|]. split.
      * constructor; [|constructor]. exists "Overview". split; [reflexivity | simpl; lia].
      * exists (letters 101). split; [reflexivity|]. split; [reflexivity | simpl; lia].
  - apply Hno_title.
    repeat (constructor; [right; left; reflexivity|]). constructor.
  - apply Hno_description.
    repeat (constructor; [right; exists []; split; [reflexivity | left; constructor]|]).
    constructor.
Defined.

(** ** The length gate of the description *)

Lemma description_loop_first_long (elements : list WebElement) (raws : list string) :
  has_texts elements raws -> description_loop elements = Ok (first_long raws).
Proof.
  induction 1 as [|element raw elements raws Hraw _ IH]; [reflexivity|].
  cbn [description_loop]. rewrite Hraw. cbn [bind].
  unfold first_long in *. cbn [map List.find].
  destruct (100 <? String.length (Py.strip raw)); [reflexivity | exact IH].
Qed.

Lemma description_is_long (driver : Driver) (selectors : list string) (trimmed : string) :
  extract_description_from selectors driver = Some trimmed -> 100 < String.length trimmed.
Proof.
  induction selectors as [|selector selectors IH]; cbn [extract_description_from]; [discriminate|].
  pose proof (description_attempt_outcome driver selector) as Hout.
  destruct (description_attempt driver selector) as [[t|]|e]; try exact IH.
  intros [= ->]. destruct Hout as (_ & element & _ & _ & _ & raw & _ & _ & Hlen). exact Hlen.
Qed.

(** C5. The description is accepted on length alone, the bound being 100
    characters of trimmed text: a candidate of at most 100 characters is
    passed over and the scan goes on with the next one; a candidate of 101
    characters is returned; no strategy ever yields a text of 100
    characters or less; and when the strategies before one all miss, the
    result is the first text of that strategy's matches, in document
    order, that is longer than 100 characters. *)
Theorem description_length_gate :
  (forall element rest raw,
      text element = Ok raw -> String.length (Py.strip raw) <= 100 ->
      description_loop (element :: rest) = description_loop rest) /\
  (forall element rest raw,
      text element = Ok raw -> String.length (Py.strip raw) = 101 ->
      description_loop (element :: rest) = Ok (Some (Py.strip raw))) /\
  (forall driver selectors trimmed,
      extract_description_from selectors driver = Some trimmed ->
      100 < String.length trimmed) /\
  (forall driver pre selector post elements raws trimmed,
      Forall (description_miss driver) pre ->
      find_elements driver CSS_SELECTOR selector = Ok elements ->
      has_texts elements raws ->
      first_long raws = Some trimmed ->
      extract_description_from (pre ++ selector :: post) driver = Some trimmed).
Proof.
  split; [|split; [|split]].
  - intros element rest raw Hraw Hlen.
    apply (description_loop_skip [element] rest).
    constructor; [exists raw; auto | constructor].
  - intros element rest raw Hraw Hlen.
    apply description_loop_long. exists raw. repeat split; [assumption | lia].
  - exact description_is_long.
  - intros driver pre selector post elements raws trimmed Hpre Hfind Htexts Hfirst.
    induction Hpre as [|sel pre Hmiss _ IH]; cbn [app extract_description_from].
    + unfold description_attempt. rewrite Hfind. cbn [bind].
      now rewrite (description_loop_first_long _ _ Htexts), Hfirst.
    + pose proof (description_attempt_miss _ _ Hmiss) as Hno.
      destruct (description_attempt driver sel) as [[t|]|e]; try exact IH.
      now contradiction (Hno t).
Qed.

Lemma description_length_gate_witness :
  description_loop [leaf (letters 100); leaf (letters 101)] = description_loop [leaf (letters 101)] /\
  description_loop [leaf (letters 101); leaf (letters 300)] = Ok (Some (letters 101)) /\
  100 < String.length (letters 101) /\
  extract_description gate_page = Some (letters 101).
Proof.
  destruct description_length_gate as (Hshort & Hlong & Hbound & Hfirst).
  split; [|split; [|split]].
  - apply (Hshort (leaf (letters 100)) [leaf (letters 101)] (letters 100)).
    + reflexivity.
    + vm_compute. lia.
  - apply (Hlong (leaf (letters 101)) [leaf (letters 300)] (letters 101)).
    + reflexivity.
    + reflexivity.
  - apply (Hbound gate_page desc_selectors). reflexivity.
  - apply (Hfirst gate_page [ ".iCIMS_InfoMsg.iCIMS_InfoField_Job" ] ".iCIMS_JobContent"
                  [ "div[class*='JobDescription']"; "div.iCIMS_Expandable_Container" ]
                  [leaf (letters 100); leaf (" " ++ letters 101); leaf (letters 300)]
                  [letters 100; (" " ++ letters 101)%string; letters 300]).
    + constructor; [|constructor].
      right. exists []. split; [reflexivity|]. left. constructor.
    + reflexivity.
    + repeat constructor.
    + reflexivity.
Defined.

(** ** Label/value pairs *)

Section DictFacts.
Context {V : Type}.

Lemma dict_get_set (k k' : string) (v : V) (d : dict V) :
  dict_get k (dict_set k' v d) = if String.eqb k k' then Some v else dict_get k d.
Proof.
  induction d as [|[k0 v0] d IH]; cbn [dict_set dict_get].
  - reflexivity.
  - destruct (String.eqb k' k0) eqn:E0; cbn [dict_get].
    + apply String.eqb_eq in E0 as ->.
      destruct (String.eqb k k0); reflexivity.
    + destruct (String.eqb k k0) eqn:E; [|exact IH].
      apply String.eqb_eq in E as ->.
      destruct (String.eqb k0 k') eqn:E'; [|reflexivity].
      apply String.eqb_eq in E' as ->. now rewrite String.eqb_refl in E0.
Qed.

Lemma dict_get_app (k : string) (a b : dict V) :
  dict_get k (a ++ b) =
  match dict_get k a with Some v => Some v | None => dict_get k b end.
Proof.
  induction a as [|[k0 v0] a IH]; cbn [app dict_get]; [reflexivity|].
  destruct (String.eqb k k0); [reflexivity | exact IH].
Qed.

Lemma dict_get_None (k : string) (d : dict V) :
  dict_get k d = None <-> ~ In k (dict_keys d).
Proof.
  induction d as [|[k0 v0] d IH]; cbn [dict_get dict_keys map fst In].
  - tauto.
  - destruct (String.eqb k k0) eqn:E.
    + apply String.eqb_eq in E as ->. split; [discriminate | tauto].
    + apply String.eqb_neq in E. fold (dict_keys d). rewrite IH.
      split; [intros H [H'|H']; [now subst | tauto] | tauto].
Qed.

Lemma dict_get_Some_key (k : string) (v : V) (d : dict V) :
  dict_get k d = Some v -> In k (dict_keys d).
Proof.
  intros H. destruct (in_dec string_dec k (dict_keys d)) as [Hin|Hnot]; [exact Hin|].
  apply dict_get_None in Hnot. congruence.
Qed.

Lemma dict_keys_set (k : string) (v : V) (d : dict V) :
  dict_keys (dict_set k v d) =
  match dict_get k d with Some _ => dict_keys d | None => dict_keys d ++ [k] end.
Proof.
  induction d as [|[k0 v0] d IH]; cbn [dict_set dict_get]; [reflexivity|].
  destruct (String.eqb k k0) eqn:E; [reflexivity|].
  cbn [dict_keys map fst]. fold (dict_keys (dict_set k v d)). rewrite IH.
  now destruct (dict_get k d).
Qed.

Lemma dict_keys_set_present (k : string) (v : V) (d : dict V) :
  In k (dict_keys d) -> dict_keys (dict_set k v d) = dict_keys d.
Proof.
  intros Hin. rewrite dict_keys_set. destruct (dict_get k d) eqn:E; [reflexivity|].
  apply dict_get_None in E. contradiction.
Qed.

Lemma dict_keys_set_incl (k : string) (v : V) (d : dict V) :
  incl (dict_keys (dict_set k v d)) (dict_keys d ++ [k]).
Proof.
  rewrite dict_keys_set. destruct (dict_get k d); [apply incl_appl|]; apply incl_refl.
Qed.

Lemma dict_set_NoDup (k : string) (v : V) (d : dict V) :
  NoDup (dict_keys d) -> NoDup (dict_keys (dict_set k v d)).
Proof.
  intros H. rewrite dict_keys_set. destruct (dict_get k d) eqn:E; [exact H|].
  apply dict_get_None in E. apply NoDup_app; repeat split.
  - exact H.
  - constructor; [intros [] | constructor].
  - intros x Hx [<-|[]]. contradiction.
Qed.

Lemma dict_set_length (k : string) (v : V) (d : dict V) :
  List.length (dict_set k v d) <= S (List.length d).
Proof.
  induction d as [|[k0 v0] d IH]; cbn [dict_set]; [simpl; lia|].
  destruct (String.eqb k k0); simpl in *; lia.
Qed.
End DictFacts.

Lemma store_all_app (a b : list (string * string)) (info : dict string) :
  store_all (a ++ b) info = store_all b (store_all a info).
Proof. apply fold_left_app. Qed.

Lemma kept_app (a b : list (string * string)) : kept (a ++ b) = kept a ++ kept b.
Proof. unfold kept. now rewrite map_app, filter_app. Qed.

Lemma kept_cons (raw_key raw_value : string) (read : list (string * string))
      (info : dict string) :
  store_all (kept ((raw_key, raw_value) :: read)) info =
  store_all (kept read)
            (if Py.nonempty (Py.strip raw_key) && Py.nonempty (Py.strip raw_value)
             then dict_set (Py.strip raw_key) (Py.strip raw_value) info
             else info).
Proof.
  unfold kept. cbn [map filter].
  change (both_nonempty (trim_pair (raw_key, raw_value)))
    with (Py.nonempty (Py.strip raw_key) && Py.nonempty (Py.strip raw_value)).
  destruct (Py.nonempty (Py.strip raw_key) && Py.nonempty (Py.strip raw_value)); reflexivity.
Qed.

Lemma pairs_loop_read (pairs : list (WebElement * WebElement)) (read : list (string * string))
      (info : dict string) :
  pairs_read pairs read ->
  pairs_loop pairs info = (store_all (kept read) info, Ok tt).
Proof.
  intros H. revert info.
  induction H as [|[dt dd] [raw_key raw_value] pairs read [Hkey Hvalue] _ IH]; intros info.
  - reflexivity.
  - cbn [fst snd] in Hkey, Hvalue. cbn [pairs_loop]. rewrite Hkey, Hvalue.
    now rewrite IH, kept_cons.
Qed.

Lemma pairs_loop_fail (pairs : list (WebElement * WebElement)) (read : list (string * string))
      (info : dict string) :
  pairs_fail_after pairs read ->
  exists e, pairs_loop pairs info = (store_all (kept read) info, Raise e).
Proof.
  intros H. revert info.
  induction H as [dt dd rest e Hkey | dt dd rest raw_key e Hkey Hvalue
                  | dt dd rest raw_key raw_value read Hkey Hvalue _ IH]; intros info;
    cbn [pairs_loop]; rewrite Hkey; try rewrite Hvalue.
  - now exists e.
  - now exists e.
  - rewrite kept_cons. apply IH.
Qed.

Lemma dls_loop_fail (dls : list WebElement) (read : list (string * string))
      (info : dict string) :
  groups_fail_after dls read ->
  exists e, dls_loop dls info = (store_all (kept read) info, Raise e).
Proof.
  intros H. revert info.
  induction H as [dl rest e Hdt | dl rest dts e Hdt Hdd
                  | dl rest dts dds read Hdt Hdd Hfail
                  | dl rest dts dds read read' Hdt Hdd Hread _ IH]; intros info;
    cbn [dls_loop]; rewrite Hdt; try rewrite Hdd.
  - now exists e.
  - now exists e.
  - destruct (pairs_loop_fail _ _ info Hfail) as [e ->]. now exists e.
  - rewrite (pairs_loop_read _ _ info Hread), kept_app, store_all_app. apply IH.
Qed.

Lemma combine_positional (labels values : list string) :
  combine labels values = positional_pairs labels values.
Proof.
  unfold positional_pairs. revert values.
  induction labels as [|label labels IH]; intros values; [reflexivity|].
  destruct values as [|value values]; [reflexivity|].
  cbn [combine List.length Nat.min seq map nth]. f_equal.
  rewrite IH, <- seq_shift, map_map. reflexivity.
Qed.

Lemma positional_pairs_length (labels values : list string) :
  List.length (positional_pairs labels values) = Nat.min (List.length labels) (List.length values).
Proof. unfold positional_pairs. now rewrite length_map, length_seq. Qed.

Lemma has_texts_pairs_read (dts dds : list WebElement) (labels values : list string) :
  has_texts dts labels -> has_texts dds values ->
  pairs_read (combine dts dds) (positional_pairs labels values).
Proof.
  rewrite <- combine_positional. intros Hdts. revert dds values.
  induction Hdts as [|dt label dts labels Hdt _ IH]; intros dds values Hdds; [constructor|].
  destruct Hdds as [|dd value dds values Hdd Hdds]; [constructor|].
  cbn [combine]. constructor; [split; assumption | now apply IH].
Qed.

Lemma dls_loop_read (dls : list WebElement) (groups : list group) (info : dict string) :
  Forall2 is_group dls groups ->
  dls_loop dls info = (store_all (retained_pairs groups) info, Ok tt).
Proof.
  intros H. revert info.
  induction H as [|dl [labels values] dls groups (dts & dds & Hdt & Hdd & Hl & Hv) _ IH];
    intros info; [reflexivity|].
  cbn [dls_loop]. rewrite Hdt, Hdd.
  rewrite (pairs_loop_read _ _ info (has_texts_pairs_read _ _ _ _ Hl Hv)).
  rewrite IH. unfold retained_pairs. cbn [flat_map fst snd].
  now rewrite store_all_app.
Qed.

Lemma store_all_get (label : string) (pairs : list (string * string)) (info : dict string) :
  dict_get label (store_all pairs info) =
  match last_value label pairs with
  | Some value => Some value
  | None => dict_get label info
  end.
Proof.
  revert info. unfold last_value.
  induction pairs as [|[k v] pairs IH]; intros info; [reflexivity|].
  cbn [store_all fold_left fst snd rev]. fold (store_all pairs (dict_set k v info)).
  rewrite IH, dict_get_app, dict_get_set. cbn [dict_get].
  destruct (dict_get label (rev pairs)); [reflexivity|].
  now destruct (String.eqb label k).
Qed.

Lemma store_all_NoDup (pairs : list (string * string)) (info : dict string) :
  NoDup (dict_keys info) -> NoDup (dict_keys (store_all pairs info)).
Proof.
  revert info. induction pairs as [|[k v] pairs IH]; intros info H; [exact H|].
  apply IH. now apply dict_set_NoDup.
Qed.

Lemma store_all_length (pairs : list (string * string)) (info : dict string) :
  List.length (store_all pairs info) <= List.length pairs + List.length info.
Proof.
  revert info. induction pairs as [|[k v] pairs IH]; intros info; [simpl; lia|].
  cbn [store_all fold_left fst snd]. fold (store_all pairs (dict_set k v info)).
  pose proof (IH (dict_set k v info)). pose proof (dict_set_length k v info).
  simpl. lia.
Qed.

Lemma kept_length (raw_pairs : list (string * string)) :
  List.length (kept raw_pairs) <= List.length raw_pairs.
Proof. unfold kept. rewrite <- (length_map trim_pair raw_pairs). apply filter_length_le. Qed.

Lemma filter_filter_and {A : Type} (f g : A -> bool) (l : list A) :
  filter f (filter g l) = filter (fun x => f x && g x) l.
Proof.
  induction l as [|x l IH]; [reflexivity|]. cbn [filter].
  destruct (g x); cbn [filter]; rewrite ?andb_true_r, ?andb_false_r, IH; reflexivity.
Qed.

Lemma existsb_among (label : string) (d : dict string) :
  existsb (String.eqb label) (dict_keys d) =
  match dict_get label d with Some _ => true | None => false end.
Proof.
  induction d as [|[k v] d IH]; [reflexivity|].
  cbn [dict_keys map fst existsb dict_get]. fold (dict_keys d).
  destruct (String.eqb label k); [reflexivity | exact IH].
Qed.

Lemma store_all_keys (pairs : list (string * string)) (info : dict string) :
  dict_keys (store_all pairs info) =
  dict_keys info ++ filter (not_among (dict_keys info)) (first_occurrences (map fst pairs)).
Proof.
  revert info. induction pairs as [|[k v] pairs IH]; intros info.
  - cbn. now rewrite app_nil_r.
  - cbn [store_all fold_left fst snd]. fold (store_all pairs (dict_set k v info)).
    rewrite IH, dict_keys_set. cbn [map fst first_occurrences filter].
    unfold not_among at 2. rewrite existsb_among.
    destruct (dict_get k info) eqn:E; cbn [negb].
    + f_equal. rewrite filter_filter_and. apply filter_ext. intros x.
      unfold not_among. rewrite existsb_among.
      destruct (String.eqb x k) eqn:Ex; [|now rewrite andb_true_r].
      apply String.eqb_eq in Ex as ->. now rewrite E.
    + rewrite <- app_assoc. cbn [app]. do 2 f_equal.
      rewrite filter_filter_and. apply filter_ext. intros x.
      unfold not_among. rewrite existsb_app. cbn [existsb].
      rewrite orb_false_r, negb_orb. reflexivity.
Qed.

Lemma extract_definition_lists_read (driver : Driver) (groups : list group) :
  shows_groups driver groups ->
  extract_definition_lists driver = store_all (retained_pairs groups) [].
Proof.
  intros (dls & Hfind & Hgroups). unfold extract_definition_lists.
  now rewrite Hfind, (dls_loop_read _ _ [] Hgroups).
Qed.

(** C6. On a page whose groups are readable, the mapping holds the pairs
    made of the i-th label and the i-th value of each group, up to the end
    of the shorter list, kept when both trimmed texts are non-empty and
    stored group after group: a label maps to the value of its last kept
    pair, the labels come in the order of their first occurrence, a single
    group gives at most as many entries as its shorter list has elements,
    and a page without kept pairs gives the empty mapping. *)
Theorem key_value_pairing (driver : Driver) (groups : list group) :
  shows_groups driver groups ->
  extract_definition_lists driver = store_all (retained_pairs groups) [] /\
  (forall label,
      dict_get label (extract_definition_lists driver) = last_value label (retained_pairs groups)) /\
  dict_keys (extract_definition_lists driver) = first_occurrences (map fst (retained_pairs groups)) /\
  (forall labels values,
      groups = [(labels, values)] ->
      List.length (positional_pairs labels values) = Nat.min (List.length labels) (List.length values) /\
      List.length (extract_definition_lists driver) <= Nat.min (List.length labels) (List.length values)) /\
  (retained_pairs groups = [] -> extract_definition_lists driver = []).
Proof.
  intros Hshows. rewrite (extract_definition_lists_read _ _ Hshows).
  split; [reflexivity|]. split; [|split; [|split]].
  - intros label. rewrite store_all_get. now destruct (last_value label (retained_pairs groups)).
  - rewrite store_all_keys. cbn [dict_keys map app].
    rewrite <- (filter_ext (fun _ => true)) by reflexivity.
    clear. induction (first_occurrences _) as [|x l IH]; [reflexivity|].
    cbn [filter]. now rewrite IH.
  - intros labels values ->. split; [apply positional_pairs_length|].
    unfold retained_pairs. cbn [flat_map fst snd]. rewrite app_nil_r.
    pose proof (store_all_length (kept (positional_pairs labels values)) []).
    pose proof (kept_length (positional_pairs labels values)).
    rewrite positional_pairs_length in *. simpl in *. lia.
  - intros ->. reflexivity.
Qed.

Lemma two_groups_shown : shows_groups two_groups_page two_groups.
Proof.
  eexists. split; [reflexivity|].
  repeat (constructor;
          [eexists; eexists; split; [reflexivity|]; split; [reflexivity|];
           split; repeat constructor|]).
  constructor.
Defined.

Lemma key_value_pairing_witness :
  extract_definition_lists two_groups_page = [("Department", "Data"); ("Shift", "Day")] /\
  dict_get "Department" (extract_definition_lists two_groups_page) = Some "Data" /\
  dict_keys (extract_definition_lists two_groups_page) = ["Department"; "Shift"].
Proof.
  destruct (key_value_pairing two_groups_page two_groups two_groups_shown)
    as (Hall & Hget & Hkeys & _).
  split; [exact Hall|]. split; [exact (Hget "Department") | exact Hkeys].
Defined.

(** Three labels over two values give two pairs. *)
Example three_labels_two_values :
  extract_definition_lists
    (page [ (TAG_NAME, "dl",
             [ dl_element [leaf "Department"; leaf "Shift"; leaf "Team"]
                          [leaf "Engineering"; leaf "Day"] ]) ])
  = [("Department", "Engineering"); ("Shift", "Day")].
Proof. reflexivity. Qed.

(** ** Failures during the scan of the groups *)

Lemma pairs_loop_outcome (pairs : list (WebElement * WebElement)) (info : dict string) :
  match pairs_loop pairs info with
  | (info', Ok _) => exists read, pairs_read pairs read /\ info' = store_all (kept read) info
  | (info', Raise _) => exists read, pairs_fail_after pairs read /\ info' = store_all (kept read) info
  end.
Proof.
  revert info. induction pairs as [|[dt dd] pairs IH]; intros info; cbn [pairs_loop].
  - exists []. split; [constructor | reflexivity].
  - destruct (text dt) as [raw_key|e] eqn:Hkey.
    + destruct (text dd) as [raw_value|e] eqn:Hvalue.
      * match goal with |- context [pairs_loop pairs ?i] => specialize (IH i) end.
        destruct (pairs_loop pairs _) as [info' [[]|e]];
          destruct IH as (read & Hread & ->); exists ((raw_key, raw_value) :: read);
          rewrite kept_cons; (split; [|reflexivity]).
        -- constructor; [split; assumption | exact Hread].
        -- now apply fail_later.
      * exists []. split; [now apply (fail_value _ _ _ raw_key e) | reflexivity].
    + exists []. split; [now apply (fail_label _ _ _ e) | reflexivity].
Qed.

Lemma dls_loop_raises (dls : list WebElement) (info info' : dict string) (e : exn) :
  dls_loop dls info = (info', Raise e) ->
  exists read, groups_fail_after dls read /\ info' = store_all (kept read) info.
Proof.
  revert info. induction dls as [|dl dls IH]; intros info; cbn [dls_loop]; [discriminate|].
  destruct (element_find_elements dl TAG_NAME "dt") as [dts|e1] eqn:Hdt.
  - destruct (element_find_elements dl TAG_NAME "dd") as [dds|e2] eqn:Hdd.
    + pose proof (pairs_loop_outcome (combine dts dds) info) as Hout.
      destruct (pairs_loop (combine dts dds) info) as [info1 [[]|e3]];
        destruct Hout as (read & Hread & ->).
      * intros H. apply IH in H as (read' & Hfail & ->).
        exists (read ++ read'). split.
        -- now apply (fail_in_later_group _ _ dts dds).
        -- now rewrite kept_app, store_all_app.
      * intros [= <- <-]. exists read. split; [|reflexivity].
        now apply (fail_inside _ _ dts dds).
    + intros [= <- <-]. exists []. split; [|reflexivity].
      now apply (fail_values_query _ _ dts e2).
  - intros [= <- <-]. exists []. split; [|reflexivity].
    now apply (fail_labels_query _ _ e1).
Qed.

(** C10. The key-value extractor always returns a mapping.  When the
    query for the groups raises, the mapping is empty; when the scan of the
    groups raises later, the mapping holds the pairs read before that
    point, kept and stored as in a scan without failure; and every scan
    that raises is of that kind. *)
Theorem partial_pairs_on_failure (driver : Driver) :
  (forall e,
      find_elements driver TAG_NAME "dl" = Raise e ->
      extract_definition_lists driver = []) /\
  (forall dls read,
      find_elements driver TAG_NAME "dl" = Ok dls ->
      groups_fail_after dls read ->
      extract_definition_lists driver = store_all (kept read) []) /\
  (forall dls info e,
      find_elements driver TAG_NAME "dl" = Ok dls ->
      dls_loop dls [] = (info, Raise e) ->
      extract_definition_lists driver = info /\
      exists read, groups_fail_after dls read /\ info = store_all (kept read) []).
Proof.
  unfold extract_definition_lists. split; [|split].
  - intros e ->. reflexivity.
  - intros dls read -> Hfail.
    now destruct (dls_loop_fail _ _ [] Hfail) as [e ->].
  - intros dls info e -> Hloop. rewrite Hloop. split; [reflexivity|].
    now apply dls_loop_raises in Hloop.
Qed.

Lemma partial_pairs_on_failure_witness :
  extract_definition_lists broken_page = [] /\
  extract_definition_lists stale_page = [("Department", "Engineering"); ("Shift", "Day")] /\
  exists read,
    groups_fail_after
      [ dl_element [leaf "Department"] [leaf "Engineering"];
        dl_element [leaf "Shift"; leaf "Team"; leaf "Site"] [leaf "Day"; stale; leaf "Austin"] ]
      read /\
    [("Department", "Engineering"); ("Shift", "Day")] = store_all (kept read) [].
Proof.
  split; [|split].
  - destruct (partial_pairs_on_failure broken_page) as (Hquery & _).
    apply (Hquery WebDriverException). reflexivity.
  - destruct (partial_pairs_on_failure stale_page) as (_ & Hscan & _).
    eapply (Hscan) with (read := [("Department", "Engineering")] ++ [("Shift", "Day")]);
      [reflexivity|].
    eapply fail_in_later_group; [reflexivity | reflexivity | |].
    + constructor; [split; reflexivity | constructor].
    + eapply fail_inside; [reflexivity | reflexivity |].
      eapply fail_later; [reflexivity | reflexivity |].
      eapply fail_value; reflexivity.
  - destruct (partial_pairs_on_failure stale_page) as (_ & _ & Hraises).
    eapply (Hraises _ _ StaleElementReferenceException); reflexivity.
Defined.

(** ** The merge stage *)

Lemma filled_merge_item_other (key k : string) (v : pyval) (job_data : dict pyval) :
  String.eqb key k = false ->
  dict_get key (merge_item job_data (k, v)) = dict_get key job_data.
Proof.
  intros Hne. unfold merge_item.
  destruct (truthy v && negb (truthy (dict_get_default k PyNone job_data))); [|reflexivity].
  now rewrite dict_get_set, Hne.
Qed.

Lemma merge_loop_get (json_ld_data job_data : dict pyval) (key : string) :
  NoDup (dict_keys json_ld_data) ->
  dict_get key (fold_left merge_item json_ld_data job_data) =
  match dict_get key json_ld_data with
  | Some value =>
      if truthy value && negb (filled key job_data) then Some value else dict_get key job_data
  | None => dict_get key job_data
  end.
Proof.
  intros Hnodup. revert job_data.
  induction json_ld_data as [|[k v] json_ld_data IH]; intros job_data; [reflexivity|].
  cbn [dict_keys map fst] in Hnodup. fold (dict_keys json_ld_data) in Hnodup.
  apply NoDup_cons_iff in Hnodup as [Hfresh Hnodup].
  cbn [fold_left dict_get]. rewrite (IH Hnodup).
  destruct (String.eqb key k) eqn:E.
  - apply String.eqb_eq in E as ->.
    apply dict_get_None in Hfresh. rewrite Hfresh.
    unfold merge_item, filled.
    destruct (truthy v && negb (truthy (dict_get_default k PyNone job_data))); [|reflexivity].
    now rewrite dict_get_set, String.eqb_refl.
  - unfold filled, dict_get_default. rewrite (filled_merge_item_other _ _ _ _ E). reflexivity.
Qed.

Lemma merge_get (json_ld_data job_data : dict pyval) (key : string) :
  NoDup (dict_keys json_ld_data) ->
  dict_get key (merge json_ld_data job_data) =
  match dict_get key json_ld_data with
  | Some value =>
      if truthy value && negb (filled key job_data) then Some value else dict_get key job_data
  | None => dict_get key job_data
  end.
Proof.
  intros H. unfold merge. destruct json_ld_data; [reflexivity|]. now apply merge_loop_get.
Qed.

(** C3. Merging a structured-data result into a record: a key the record
    has filled keeps its value; a key the record has absent or empty takes
    the structured value when that one is non-empty; the value under a key
    changes in no other case; and an empty structured-data result leaves
    the record as it is.  (Empty means false in Python's sense: [None], the
    empty string, an empty mapping.) *)
Theorem merge_fills_gaps_only (json_ld_data job_data : dict pyval) :
  NoDup (dict_keys json_ld_data) ->
  (forall key,
      filled key job_data = true ->
      dict_get key (merge json_ld_data job_data) = dict_get key job_data) /\
  (forall key value,
      dict_get key json_ld_data = Some value ->
      truthy value = true ->
      filled key job_data = false ->
      dict_get key (merge json_ld_data job_data) = Some value) /\
  (forall key,
      dict_get key (merge json_ld_data job_data) <> dict_get key job_data ->
      filled key job_data = false /\
      exists value,
        dict_get key json_ld_data = Some value /\ truthy value = true /\
        dict_get key (merge json_ld_data job_data) = Some value) /\
  merge [] job_data = job_data.
Proof.
  intros Hnodup. split; [|split; [|split]].
  - intros key Hfilled. rewrite merge_get by exact Hnodup.
    destruct (dict_get key json_ld_data); [|reflexivity].
    rewrite Hfilled. cbn [negb]. now rewrite andb_false_r.
  - intros key value Hget Htruthy Hempty. rewrite merge_get by exact Hnodup.
    now rewrite Hget, Htruthy, Hempty.
  - intros key. rewrite merge_get by exact Hnodup.
    destruct (dict_get key json_ld_data) as [value|]; [|contradiction].
    destruct (truthy value) eqn:Htruthy; destruct (filled key job_data) eqn:Hfilled;
      cbn [andb negb]; try contradiction.
    intros _. split; [reflexivity|]. now exists value.
  - reflexivity.
Qed.

Lemma merge_fills_gaps_only_witness :
  dict_get "location" (merge structured_result dom_record) = Some (PyStr "Austin, TX") /\
  dict_get "company" (merge structured_result dom_record) = Some (PyStr "Acme Corp") /\
  (filled "company" dom_record = false /\
   exists value,
     dict_get "company" structured_result = Some value /\ truthy value = true /\
     dict_get "company" (merge structured_result dom_record) = Some value) /\
  merge [] dom_record = dom_record.
Proof.
  assert (NoDup (dict_keys structured_result)) as Hnodup.
  { repeat constructor; simpl; intuition discriminate. }
  destruct (merge_fills_gaps_only structured_result dom_record Hnodup)
    as (Hkeep & Hfill & Hchange & Hempty).
  split; [|split; [|split]].
  - apply (Hkeep "location"). reflexivity.
  - apply (Hfill "company" (PyStr "Acme Corp")); reflexivity.
  - apply (Hchange "company"). vm_compute. discriminate.
  - exact Hempty.
Defined.

(** ** Structured data *)

Section StructuredData.
Variable json_loads : string -> result pyval.
Variable py_repr : pyval -> string.

Lemma scripts_loop_pass (pre rest : list ScriptTag) (structured_data : dict pyval) :
  Forall (passed_over json_loads) pre ->
  scripts_loop json_loads py_repr (pre ++ rest) structured_data
  = scripts_loop json_loads py_repr rest structured_data.
Proof.
  induction 1 as [|script pre (s & Hs & Hloads) _ IH]; [reflexivity|].
  cbn [app scripts_loop]. rewrite Hs. cbn [loads].
  destruct Hloads as [-> | (data & -> & Hdata)]; [exact IH|].
  destruct data; try exact IH. now rewrite Hdata.
Qed.

(** The block of a posting raises nothing but [AttributeError]. *)
Lemma job_posting_block_raises (data structured_data : dict pyval) (e : exn) :
  snd (job_posting_block py_repr data structured_data) = Raise e -> e = AttributeError.
Proof.
  unfold job_posting_block, location_block, py_get.
  destruct (dict_get_default "hiringOrganization" (PyDict []) data);
    cbn [snd]; try (now intros [= <-]).
  destruct (dict_get_default "jobLocation" (PyDict []) data) as [| | | | | |location];
    cbn [snd]; try discriminate.
  destruct (dict_get_default "address" (PyDict []) location);
    cbn [snd]; try discriminate; now intros [= <-].
Qed.

Lemma scripts_loop_posting (script : ScriptTag) (rest : list ScriptTag)
      (data structured_data : dict pyval) :
  is_job_posting json_loads script data ->
  scripts_loop json_loads py_repr (script :: rest) structured_data
  = job_posting_block py_repr data structured_data.
Proof.
  intros (s & Hs & Hloads & Htype). cbn [scripts_loop]. rewrite Hs. cbn [loads].
  rewrite Hloads, Htype.
  pose proof (job_posting_block_raises data structured_data) as Hraises.
  destruct (job_posting_block py_repr data structured_data) as [sd [[]|e]]; [reflexivity|].
  now rewrite (Hraises e eq_refl).
Qed.

Lemma job_posting_block_derived (data : dict pyval) :
  well_nested data ->
  job_posting_block py_repr data [] = (derived_fields py_repr data, Ok tt).
Proof.
  intros [[organization Horganization] Hlocation].
  unfold job_posting_block, derived_fields, nested_field, location_block, py_get, field.
  unfold sub_object in *. rewrite Horganization.
  destruct (dict_get_default "jobLocation" (PyDict []) data) as [| | | | | |location];
    try (destruct (truthy (dict_get_default "baseSalary" (PyDict []) data)); reflexivity).
  destruct Hlocation as [address Haddress]. rewrite Haddress.
  destruct (truthy (dict_get_default "baseSalary" (PyDict []) data)); reflexivity.
Qed.

(** The keys stored for a posting, whether or not the block raises. *)
Lemma job_posting_block_keys (data : dict pyval) :
  let keys := dict_keys (fst (job_posting_block py_repr data [])) in
  In "title" keys /\ incl keys structured_keys /\ NoDup keys.
Proof.
  assert (forall keys, keys = ["title"] \/
                       keys = firstn 5 structured_keys \/
                       keys = firstn 6 structured_keys \/
                       keys = firstn 5 structured_keys ++ ["salary"] \/
                       keys = structured_keys ->
                       In "title" keys /\ incl keys structured_keys /\ NoDup keys) as Hshape.
  { intros keys [-> | [-> | [-> | [-> | ->]]]];
      (split; [now left|]); (split; [intros x Hx; simpl in *; tauto|]);
      repeat constructor; simpl; intuition discriminate. }
  apply Hshape.
  unfold job_posting_block, location_block, py_get.
  destruct (dict_get_default "hiringOrganization" (PyDict []) data);
    try (left; reflexivity).
  destruct (dict_get_default "jobLocation" (PyDict []) data) as [| | | | | |location];
    try (destruct (truthy (dict_get_default "baseSalary" (PyDict []) data));
         cbn; tauto).
  destruct (dict_get_default "address" (PyDict []) location);
    try (cbn; tauto);
    destruct (truthy (dict_get_default "baseSalary" (PyDict []) data)); cbn; tauto.
Qed.

(** The scan ends with nothing stored or with what one posting stored. *)
Lemma scripts_loop_outcome (scripts : list ScriptTag) :
  fst (scripts_loop json_loads py_repr scripts []) = [] \/
  exists data,
    scripts_loop json_loads py_repr scripts [] = job_posting_block py_repr data [].
Proof.
  induction scripts as [|script scripts IH]; [now left|].
  cbn [scripts_loop].
  destruct (loads json_loads (script_string script)) as [data|e].
  - destruct data as [| | | | | |data]; try exact IH.
    destruct (py_eq_str _ _); [|exact IH].
    right. exists data.
    pose proof (job_posting_block_raises data []) as Hraises.
    destruct (job_posting_block py_repr data []) as [sd [[]|e]]; [reflexivity|].
    now rewrite (Hraises e eq_refl).
  - destruct e; try (now left). exact IH.
Qed.

Lemma extract_json_ld_keys (soup : Soup) :
  incl (dict_keys (extract_json_ld json_loads py_repr soup)) structured_keys /\
  NoDup (dict_keys (extract_json_ld json_loads py_repr soup)).
Proof.
  unfold extract_json_ld.
  destruct (scripts_loop_outcome (find_all_ld_json soup)) as [-> | [data ->]].
  - split; [intros x [] | constructor].
  - apply job_posting_block_keys.
Qed.

(** Blocks that do not decode, and blocks that are not postings, are
    passed over; the first posting decides the result, whatever comes
    after it; without a posting the result is empty. *)
Lemma first_posting_decides (pre post : list ScriptTag) (script : ScriptTag)
      (data : dict pyval) :
  Forall (passed_over json_loads) pre ->
  is_job_posting json_loads script data ->
  extract_json_ld json_loads py_repr (mkSoup (pre ++ script :: post))
  = fst (job_posting_block py_repr data []).
Proof.
  intros Hpre Hposting. unfold extract_json_ld. cbn [find_all_ld_json].
  now rewrite (scripts_loop_pass _ _ _ Hpre), (scripts_loop_posting _ _ _ _ Hposting).
Qed.

Lemma no_posting_nothing (scripts : list ScriptTag) :
  Forall (passed_over json_loads) scripts ->
  extract_json_ld json_loads py_repr (mkSoup scripts) = [].
Proof.
  intros H. unfold extract_json_ld. cbn [find_all_ld_json].
  now rewrite <- (app_nil_r scripts), (scripts_loop_pass _ _ _ H).
Qed.

(** Whatever the page, a posting met by the scan has its title stored
    under [title]. *)
Lemma posting_stores_title_key (pre post : list ScriptTag) (script : ScriptTag)
      (data : dict pyval) :
  Forall (passed_over json_loads) pre ->
  is_job_posting json_loads script data ->
  In "title" (dict_keys (extract_json_ld json_loads py_repr (mkSoup (pre ++ script :: post)))).
Proof.
  intros Hpre Hposting. rewrite (first_posting_decides _ _ _ _ Hpre Hposting).
  now destruct (job_posting_block_keys data) as (Htitle & _).
Qed.

(** A block without text ends the scan. *)
Lemma empty_script_ends_scan (rest : list ScriptTag) :
  extract_json_ld json_loads py_repr (mkSoup (empty_script :: rest)) = [].
Proof. reflexivity. Qed.

End StructuredData.

(** C7. A block without text is not passed over: the scan ends at it with
    nothing stored, whatever the blocks after it, here a posting that
    alone gives a non-empty result; while a block whose text does not
    decode, in the same place, is passed over. *)
Theorem empty_block_stops_scan :
  (forall json_loads py_repr rest,
      extract_json_ld json_loads py_repr (mkSoup (empty_script :: rest)) = []) /\
  extract_json_ld sample_loads sample_repr (mkSoup [empty_script; script full_posting_text]) = [] /\
  extract_json_ld sample_loads sample_repr (mkSoup [script full_posting_text])
  = [ ("title", PyStr "Data Analyst");
      ("company", PyStr "Acme Corp");
      ("description", PyNone);
      ("posted_date", PyStr "2025-10-01");
      ("employment_type", PyNone);
      ("location", PyStr "Austin, TX");
      ("salary", PyStr "{'currency': 'USD'}") ] /\
  extract_json_ld sample_loads sample_repr (mkSoup [script broken_text; script full_posting_text])
  = extract_json_ld sample_loads sample_repr (mkSoup [script full_posting_text]).
Proof.
  split; [intros; apply empty_script_ends_scan|].
  split; [reflexivity|]. split; reflexivity.
Qed.

(** C8, as it is worded, fails: for a posting whose address has a region
    and no city the location is the region alone, and not the region after
    a comma and a space. *)
Lemma location_not_as_worded :
  dict_get "location"
           (extract_json_ld sample_loads sample_repr (mkSoup [script posting_in_texas_text]))
  = Some (PyStr "TX") /\
  location_as_worded "" "TX" = ", TX" /\
  dict_get "location"
           (extract_json_ld sample_loads sample_repr (mkSoup [script posting_in_texas_text]))
  <> Some (PyStr (location_as_worded "" "TX")).
Proof. split; [reflexivity|]. split; [reflexivity | discriminate]. Qed.

(** C8, amended.  From the first posting among the blocks, the blocks
    before it being passed over, and the organization and the address
    being objects when they are there, the extractor derives exactly:
    the title; the company, which is the name under the organization; the
    description; the posting date; the employment type; for a location
    object, the location, made of the city, a comma, a space and the
    region, with the commas and spaces at both ends removed; and, when the
    salary entry is non-empty, the salary as [str] prints it. *)
Theorem derived_from_first_posting (json_loads : string -> result pyval)
        (py_repr : pyval -> string) (pre post : list ScriptTag) (script : ScriptTag)
        (data : dict pyval) :
  Forall (passed_over json_loads) pre ->
  is_job_posting json_loads script data ->
  well_nested data ->
  extract_json_ld json_loads py_repr (mkSoup (pre ++ script :: post))
  = derived_fields py_repr data.
Proof.
  intros Hpre Hposting Hnested.
  rewrite (first_posting_decides _ _ _ _ _ _ Hpre Hposting).
  now rewrite (job_posting_block_derived _ _ Hnested).
Qed.

Lemma derived_from_first_posting_witness :
  extract_json_ld sample_loads sample_repr
    (mkSoup ([script broken_text; script organization_text]
               ++ script full_posting_text :: [script posting_in_texas_text]))
  = [ ("title", PyStr "Data Analyst");
      ("company", PyStr "Acme Corp");
      ("description", PyNone);
      ("posted_date", PyStr "2025-10-01");
      ("employment_type", PyNone);
      ("location", PyStr "Austin, TX");
      ("salary", PyStr "{'currency': 'USD'}") ].
Proof.
  apply (derived_from_first_posting sample_loads sample_repr
           [script broken_text; script organization_text] [script posting_in_texas_text]
           (script full_posting_text) full_posting).
  - constructor; [|constructor; [|constructor]].
    + exists broken_text. split; [reflexivity|]. left. reflexivity.
    + exists organization_text. split; [reflexivity|]. right.
      exists (PyDict organization). split; reflexivity.
  - exists full_posting_text. split; [reflexivity|]. split; reflexivity.
  - split; [eexists; reflexivity|]. cbn. eexists; reflexivity.
Defined.

(** C1. The structured-data extractor stores the title of a posting under
    the key [title], which is not a key of the record; after the merge the
    record of a successful run has that key next to [job_title], which
    stays [None]. *)
Theorem title_key_outside_record :
  ~ In "title" (canonical_keys ++ [full_text_key]) /\
  In "title" (dict_keys (extract_json_ld sample_loads sample_repr
                                         (mkSoup [script posting_with_title_text]))) /\
  exists job_data,
    scrape_icims_job sample_loads sample_repr main_url sample_now
                     (Ok (page [], mkSoup [script posting_with_title_text])) = Some job_data /\
    In "title" (dict_keys job_data) /\
    dict_get "title" job_data = Some (PyStr "Data Analyst") /\
    dict_get "job_title" job_data = Some PyNone.
Proof.
  split; [simpl; intuition discriminate|].
  split; [vm_compute; tauto|].
  eexists. split; [vm_compute; reflexivity|].
  split; [simpl; tauto|]. split; reflexivity.
Qed.

(** The end-to-end run: the title comes from the third strategy, the group
    and the posting date are there, the location is not. *)
Example end_to_end_run :
  exists job_data,
    scrape_icims_job sample_loads sample_repr main_url sample_now
                     (Ok (end_to_end_page, mkSoup [script posting_with_date_text])) = Some job_data /\
    dict_get "job_title" job_data = Some (PyStr "Data Analyst") /\
    dict_get "additional_info" job_data = Some (PyDict [("Department", PyStr "Engineering")]) /\
    dict_get "posted_date" job_data = Some (PyStr "2025-10-01") /\
    dict_get "job_id" job_data = Some (PyStr "5417") /\
    dict_get "location" job_data = Some PyNone.
Proof. eexists. split; [vm_compute; reflexivity|]. repeat split. Qed.

(** ** The record of a run *)

Section RunFacts.
Variable json_loads : string -> result pyval.
Variable py_repr : pyval -> string.

Lemma merge_keeps_other_keys (soup : Soup) (job_data : dict pyval) (key : string) :
  ~ In key structured_keys ->
  dict_get key (merge (extract_json_ld json_loads py_repr soup) job_data) = dict_get key job_data.
Proof.
  intros Hkey. destruct (extract_json_ld_keys json_loads py_repr soup) as [Hincl Hnodup].
  rewrite merge_get by exact Hnodup.
  destruct (dict_get key (extract_json_ld json_loads py_repr soup)) eqn:E; [|reflexivity].
  exfalso. apply Hkey, Hincl. now apply dict_get_Some_key in E.
Qed.

(** The steps after the parse of the address leave [job_id] alone, and
    none of them raises. *)
Lemma job_id_kept (url now : string) (driver : Driver) (soup : Soup) (parsed : dict pyval) :
  job_id_step url (initial_job_data url now) = Ok parsed ->
  exists job_data,
    scrape_icims_job json_loads py_repr url now (Ok (driver, soup)) = Some job_data /\
    dict_get "job_id" job_data = dict_get "job_id" parsed.
Proof.
  intros Hstep. unfold scrape_icims_job, extract_job_details. cbn [bind fst snd].
  rewrite Hstep. cbn [bind]. eexists. split; [reflexivity|].
  unfold full_page_text_step.
  destruct (body <- find_element driver TAG_NAME "body" ;; text body);
    rewrite ?dict_get_set; cbn [String.eqb Ascii.eqb Bool.eqb];
    (rewrite merge_keeps_other_keys by (simpl; intuition discriminate));
    rewrite !dict_get_set; reflexivity.
Qed.

Lemma job_id_step_keys (url : string) (job_data parsed : dict pyval) :
  In "job_id" (dict_keys job_data) ->
  job_id_step url job_data = Ok parsed -> dict_keys parsed = dict_keys job_data.
Proof.
  intros Hin. unfold job_id_step.
  destruct (Py.contains "/jobs/" url); [|now intros [= <-]].
  destruct (index (Py.split "/jobs/" url) 1) as [after|e]; cbn [bind]; [|discriminate].
  destruct (index (Py.split "/" after) 0) as [job_id|e]; cbn [bind]; [|discriminate].
  intros [= <-]. now apply dict_keys_set_present.
Qed.

Lemma merge_keys_incl (json_ld_data job_data : dict pyval) :
  incl (dict_keys (merge json_ld_data job_data)) (dict_keys job_data ++ dict_keys json_ld_data).
Proof.
  assert (forall items record,
             incl (dict_keys (fold_left merge_item items record))
                  (dict_keys record ++ dict_keys items)) as Hloop.
  { induction items as [|[k v] items IH]; intros record; cbn [fold_left].
    - apply incl_appl, incl_refl.
    - intros x Hx. apply IH in Hx. apply in_app_iff in Hx as [Hx|Hx].
      + unfold merge_item in Hx.
        destruct (truthy v && negb (truthy (dict_get_default k PyNone record))).
        * apply dict_keys_set_incl in Hx. apply in_app_iff in Hx as [Hx|[<-|[]]].
          -- apply in_app_iff. now left.
          -- apply in_app_iff. right. now left.
        * apply in_app_iff. now left.
      + apply in_app_iff. right. now right. }
  unfold merge. destruct json_ld_data; [|apply Hloop].
  apply incl_appl, incl_refl.
Qed.

(** The keys of the record of a run: those of the canonical record, and
    besides them only [title] and the key of the page text. *)
Lemma record_keys (url now : string) (driver : Driver) (soup : Soup) (job_data : dict pyval) :
  scrape_icims_job json_loads py_repr url now (Ok (driver, soup)) = Some job_data ->
  incl canonical_keys (dict_keys job_data) /\
  incl (dict_keys job_data) (canonical_keys ++ ["title"; full_text_key]).
Proof.
  unfold scrape_icims_job, extract_job_details. cbn [bind fst snd].
  destruct (job_id_step url (initial_job_data url now)) as [parsed|e] eqn:Hstep;
    cbn [bind]; [|discriminate].
  apply job_id_step_keys in Hstep; [|simpl; tauto].
  intros [= <-].
  set (dom := dict_set "description" _ _).
  assert (dict_keys dom = dict_keys (initial_job_data url now)) as Hdom.
  { assert (forall k v (d : dict pyval),
               dict_keys d = dict_keys (initial_job_data url now) ->
               In k (dict_keys (initial_job_data url now)) ->
               dict_keys (dict_set k v d) = dict_keys (initial_job_data url now)) as Hset.
    { intros k v d Hd Hk. rewrite dict_keys_set_present; [exact Hd | now rewrite Hd]. }
    unfold dom. repeat (apply Hset; [|simpl; tauto]). exact Hstep. }
  set (sd := extract_json_ld json_loads py_repr soup).
  assert (incl (dict_keys (merge sd dom)) (canonical_keys ++ ["title"])) as Hmerged.
  { intros x Hx. apply merge_keys_incl in Hx. rewrite Hdom in Hx.
    apply in_app_iff in Hx as [Hx|Hx].
    - simpl in *. tauto.
    - apply (proj1 (extract_json_ld_keys json_loads py_repr soup)) in Hx. simpl in *. tauto. }
  assert (incl canonical_keys (dict_keys (merge sd dom))) as Hcanonical.
  { intros x Hx.
    assert (In x (dict_keys dom)) as Hin by (rewrite Hdom; simpl in *; tauto).
    destruct (dict_get x dom) eqn:E; [|apply dict_get_None in E; contradiction].
    destruct (dict_get x (merge sd dom)) eqn:E'; [now apply dict_get_Some_key in E'|].
    rewrite merge_get in E' by apply extract_json_ld_keys. rewrite E in E'.
    destruct (dict_get x sd) as [value|]; [|discriminate].
    destruct (truthy value && negb (filled x dom)); discriminate. }
  unfold full_page_text_step.
  destruct (body <- find_element driver TAG_NAME "body" ;; text body).
  - split.
    + intros x Hx. apply Hcanonical in Hx. rewrite dict_keys_set.
      destruct (dict_get _ (merge sd dom)); [exact Hx | apply in_app_iff; now left].
    + intros x Hx. apply dict_keys_set_incl in Hx. apply in_app_iff in Hx as [Hx|[<-|[]]].
      * apply Hmerged in Hx. apply in_app_iff in Hx as [Hx|[<-|[]]]; apply in_app_iff;
          [now left | right; now left].
      * apply in_app_iff. right. right. now left.
  - split; [exact Hcanonical|].
    intros x Hx. apply Hmerged in Hx. apply in_app_iff in Hx as [Hx|[<-|[]]]; apply in_app_iff;
      [now left | right; now left].
Qed.

End RunFacts.




(** * Further properties of the extractors *)

(** ** Trimmed texts *)

Lemma rstrip_by_cons (drop : ascii -> bool) (c : ascii) (s : string) :
  Py.rstrip_by drop (String c s) =
  match Py.rstrip_by drop s with
  | EmptyString => if drop c then EmptyString else String c EmptyString
  | r => String c r
  end.
Proof. reflexivity. Qed.

Lemma rstrip_by_idempotent (drop : ascii -> bool) (s : string) :
  Py.rstrip_by drop (Py.rstrip_by drop s) = Py.rstrip_by drop s.
Proof.
  induction s as [|c s IH]; [reflexivity|].
  rewrite rstrip_by_cons. destruct (Py.rstrip_by drop s) as [|c' r] eqn:E.
  - destruct (drop c) eqn:Hc; [reflexivity|]. rewrite rstrip_by_cons. cbn. now rewrite Hc.
  - rewrite rstrip_by_cons, IH. reflexivity.
Qed.

Lemma rstrip_by_keeps_head (drop : ascii -> bool) (c : ascii) (s : string) :
  drop c = false -> exists r, Py.rstrip_by drop (String c s) = String c r.
Proof.
  intros Hc. rewrite rstrip_by_cons. destruct (Py.rstrip_by drop s); rewrite ?Hc; eauto.
Qed.

Lemma lstrip_by_head (drop : ascii -> bool) (s : string) :
  Py.lstrip_by drop s = "" \/
  exists c r, Py.lstrip_by drop s = String c r /\ drop c = false.
Proof.
  induction s as [|c s IH]; [now left|].
  cbn [Py.lstrip_by]. destruct (drop c) eqn:Hc; [exact IH | right; eauto].
Qed.

Lemma strip_by_idempotent (drop : ascii -> bool) (s : string) :
  Py.strip_by drop (Py.strip_by drop s) = Py.strip_by drop s.
Proof.
  unfold Py.strip_by.
  destruct (lstrip_by_head drop s) as [-> | (c & r & -> & Hc)]; [reflexivity|].
  destruct (rstrip_by_keeps_head drop c r Hc) as [r' Hr].
  rewrite Hr at 1. cbn [Py.lstrip_by]. rewrite Hc, <- Hr.
  apply rstrip_by_idempotent.
Qed.

Lemma strip_trimmed (s : string) : trimmed (Py.strip s).
Proof. apply strip_by_idempotent. Qed.

Lemma title_from_a_hit (driver : Driver) (selectors : list (By * string)) (title : string) :
  extract_job_title_from selectors driver = Some title ->
  exists strategy, In strategy selectors /\ title_hit driver strategy title.
Proof.
  induction selectors as [|[by_ selector] selectors IH]; cbn [extract_job_title_from];
    [discriminate|].
  pose proof (title_attempt_outcome driver by_ selector) as Hout.
  destruct (title_attempt driver by_ selector) as [[t|]|e].
  - intros [= ->]. exists (by_, selector). split; [now left | exact Hout].
  - intros H. destruct (IH H) as (s & Hin & Hhit). exists s. split; [now right | exact Hhit].
  - intros H. destruct (IH H) as (s & Hin & Hhit). exists s. split; [now right | exact Hhit].
Qed.

Lemma description_from_a_hit (driver : Driver) (selectors : list string) (text : string) :
  extract_description_from selectors driver = Some text ->
  exists selector, In selector selectors /\ description_hit driver selector text.
Proof.
  induction selectors as [|selector selectors IH]; cbn [extract_description_from];
    [discriminate|].
  pose proof (description_attempt_outcome driver selector) as Hout.
  destruct (description_attempt driver selector) as [[t|]|e].
  - intros [= ->]. exists selector. split; [now left | exact Hout].
  - intros H. destruct (IH H) as (s & Hin & Hhit). exists s. split; [now right | exact Hhit].
  - intros H. destruct (IH H) as (s & Hin & Hhit). exists s. split; [now right | exact Hhit].
Qed.

(** X1. Whatever the page and the list of strategies, a title that is
    returned is the trimmed text of the first match of one of the
    strategies: it is not empty and has no white space at its ends. *)
Theorem title_is_trimmed_text (driver : Driver) (selectors : list (By * string))
        (title : string) :
  extract_job_title_from selectors driver = Some title ->
  title <> "" /\ trimmed title /\
  exists by_ selector element rest raw,
    In (by_, selector) selectors /\
    find_elements driver by_ selector = Ok (element :: rest) /\
    text element = Ok raw /\ title = Py.strip raw.
Proof.
  intros H. apply title_from_a_hit in H as ([by_ selector] & Hin & Hhit).
  destruct Hhit as (element & rest & raw & Hfind & Hraw & Hstrip & Hne).
  split; [exact Hne|]. split; [rewrite <- Hstrip; apply strip_trimmed|].
  exists by_, selector, element, rest, raw. now rewrite Hstrip.
Qed.

Lemma title_is_trimmed_text_witness :
  "Data Analyst" <> "" /\ trimmed "Data Analyst" /\
  exists by_ selector element rest raw,
    In (by_, selector) title_selectors /\
    find_elements fallback_page by_ selector = Ok (element :: rest) /\
    text element = Ok raw /\ "Data Analyst" = Py.strip raw.
Proof. apply (title_is_trimmed_text fallback_page title_selectors). reflexivity. Defined.

(** X2. Whatever the page and the list of strategies, a description that
    is returned is the trimmed text of an element matched by one of the
    strategies, and no element before it under that strategy is as long. *)
Theorem description_is_trimmed_text (driver : Driver) (selectors : list string)
        (description : string) :
  extract_description_from selectors driver = Some description ->
  trimmed description /\
  exists selector short element rest raw,
    In selector selectors /\
    find_elements driver CSS_SELECTOR selector = Ok (short ++ element :: rest) /\
    Forall short_text short /\
    text element = Ok raw /\ description = Py.strip raw.
Proof.
  intros H. apply description_from_a_hit in H as (selector & Hin & Hhit).
  destruct Hhit as (short & element & rest & Hfind & Hshort & raw & Hraw & Hstrip & _).
  split; [rewrite <- Hstrip; apply strip_trimmed|].
  exists selector, short, element, rest, raw. now rewrite Hstrip.
Qed.

Lemma description_is_trimmed_text_witness :
  trimmed (letters 101) /\
  exists selector short element rest raw,
    In selector desc_selectors /\
    find_elements gate_page CSS_SELECTOR selector = Ok (short ++ element :: rest) /\
    Forall short_text short /\
    text element = Ok raw /\ letters 101 = Py.strip raw.
Proof. apply (description_is_trimmed_text gate_page desc_selectors). reflexivity. Defined.

(** ** Location *)

Lemma location_loop_found (elements : list WebElement) (location : string) :
  location_loop elements = Ok (Some location) ->
  exists before element rest raw,
    elements = before ++ element :: rest /\
    text element = Ok raw /\ location = Py.strip raw /\
    Py.contains "," location = true /\
    Forall (fun e => exists r, text e = Ok r /\ Py.contains "," (Py.strip r) = false) before.
Proof.
  induction elements as [|element elements IH]; cbn [location_loop]; [discriminate|].
  destruct (text element) as [raw|e] eqn:Hraw; cbn [bind]; [|discriminate].
  rewrite Remote_not_in_lower, orb_false_r.
  destruct (Py.contains "," (Py.strip raw)) eqn:Hcomma.
  - intros [= <-]. exists [], element, elements, raw. repeat split; auto.
  - intros H. destruct (IH H) as (before & el & rest & r & -> & Hr & Hloc & Hc & Hbefore).
    exists (element :: before), el, rest, r. repeat split; auto.
    constructor; [eauto | exact Hbefore].
Qed.

Lemma comma_nonempty (s : string) : Py.contains "," s = true -> Py.nonempty s = true.
Proof. destruct s; [discriminate | reflexivity]. Qed.

Lemma location_nonempty (driver : Driver) (location : string) :
  extract_location driver = Some location -> Py.nonempty location = true.
Proof.
  unfold extract_location.
  destruct (find_elements driver CSS_SELECTOR "dd") as [elements|e]; cbn [bind]; [|discriminate].
  destruct (location_loop elements) as [[found|]|e] eqn:Hloop; try discriminate.
  intros [= ->]. apply location_loop_found in Hloop as (_ & _ & _ & _ & _ & _ & _ & Hcomma & _).
  now apply comma_nonempty.
Qed.

(** X3. Whatever the page, a location that is returned has a comma in it:
    it is the trimmed text of the first value element with a comma, the
    elements before it being readable and without one.  The word Remote
    alone never makes a location. *)
Theorem location_always_has_comma (driver : Driver) (location : string) :
  extract_location driver = Some location ->
  Py.contains "," location = true /\ trimmed location /\
  exists before element rest raw,
    find_elements driver CSS_SELECTOR "dd" = Ok (before ++ element :: rest) /\
    text element = Ok raw /\ location = Py.strip raw /\
    Forall (fun e => exists r, text e = Ok r /\ Py.contains "," (Py.strip r) = false) before.
Proof.
  unfold extract_location.
  destruct (find_elements driver CSS_SELECTOR "dd") as [elements|e]; cbn [bind]; [|discriminate].
  destruct (location_loop elements) as [[found|]|e] eqn:Hloop; try discriminate.
  intros [= ->]. apply location_loop_found in Hloop
    as (before & element & rest & raw & -> & Hraw & Hloc & Hcomma & Hbefore).
  split; [exact Hcomma|]. split; [rewrite Hloc; apply strip_trimmed|].
  exists before, element, rest, raw. auto.
Qed.

Lemma location_always_has_comma_witness :
  Py.contains "," "Austin, TX" = true /\ trimmed "Austin, TX" /\
  exists before element rest raw,
    find_elements remote_then_comma_page CSS_SELECTOR "dd" = Ok (before ++ element :: rest) /\
    text element = Ok raw /\ "Austin, TX" = Py.strip raw /\
    Forall (fun e => exists r, text e = Ok r /\ Py.contains "," (Py.strip r) = false) before.
Proof. apply (location_always_has_comma remote_then_comma_page). reflexivity. Defined.

(** X4. On a page whose value elements are all readable the location is
    the first trimmed text with a comma, and there is no location when no
    text has a comma, whatever the texts say. *)
Theorem location_on_readable_page (driver : Driver) (elements : list WebElement)
        (raws : list string) :
  find_elements driver CSS_SELECTOR "dd" = Ok elements ->
  has_texts elements raws ->
  extract_location driver = first_with_comma raws /\
  (Forall (fun raw => Py.contains "," raw = false) raws -> extract_location driver = None).
Proof.
  intros Hfind Htexts.
  assert (extract_location driver = first_with_comma raws) as ->.
  { unfold extract_location. rewrite Hfind. cbn [bind].
    now rewrite (location_loop_first_with_comma _ _ Htexts). }
  split; [reflexivity|]. clear. intros Hnone. unfold first_with_comma.
  induction Hnone as [|raw raws Hraw _ IH]; [reflexivity|].
  cbn [map List.find].
  destruct (Py.contains "," (Py.strip raw)) eqn:E; [|exact IH].
  exfalso. revert Hraw E. clear.
  assert (forall drop s, Py.contains "," s = false ->
                         Py.contains "," (Py.rstrip_by drop s) = false) as Hr.
  { intros drop s. induction s as [|c s IH]; [reflexivity|].
    cbn [Py.contains Py.startswith Py.rstrip_by]. intros H.
    apply orb_false_iff in H as [Hc Hs]. specialize (IH Hs).
    destruct (Py.rstrip_by drop s) as [|c' r].
    - destruct (drop c); [reflexivity|]. cbn [Py.contains Py.startswith].
      now rewrite Hc.
    - cbn [Py.contains Py.startswith]. rewrite Hc. exact IH. }
  assert (forall drop s, Py.contains "," s = false ->
                         Py.contains "," (Py.lstrip_by drop s) = false) as Hl.
  { intros drop s. induction s as [|c s IH]; [reflexivity|].
    intros H. cbn [Py.lstrip_by]. destruct (drop c); [|exact H].
    apply IH. cbn [Py.contains] in H. now apply orb_false_iff in H as [_ H]. }
  intros Hraw E. unfold Py.strip, Py.strip_by in E.
  rewrite (Hr _ _ (Hl _ _ Hraw)) in E. discriminate.
Qed.

Lemma location_on_readable_page_witness :
  extract_location remote_then_comma_page = Some "Austin, TX" /\
  extract_location no_comma_page = None.
Proof.
  split.
  - apply (location_on_readable_page remote_then_comma_page
             [leaf "Remote"; leaf " Austin, TX "] ["Remote"; " Austin, TX "]).
    + reflexivity.
    + repeat constructor.
  - apply (location_on_readable_page no_comma_page
             [leaf "Remote"; leaf "Full time"] ["Remote"; "Full time"]).
    + reflexivity.
    + repeat constructor.
    + repeat constructor.
Defined.

(** X5. A failure ends the search for the location: when the query for the
    value elements raises, or when an element cannot be read and no element
    before it has a comma, there is no location, whatever the elements
    after it. *)
Theorem location_lost_on_failure (driver : Driver) :
  (forall e, find_elements driver CSS_SELECTOR "dd" = Raise e -> extract_location driver = None) /\
  (forall before element rest raws e,
      find_elements driver CSS_SELECTOR "dd" = Ok (before ++ element :: rest) ->
      has_texts before raws ->
      first_with_comma raws = None ->
      text element = Raise e ->
      extract_location driver = None).
Proof.
  unfold extract_location. split.
  - intros e ->. reflexivity.
  - intros before element rest raws e -> Htexts Hnone Hraise. cbn [bind].
    revert Hnone. unfold first_with_comma.
    induction Htexts as [|el raw before raws Hraw _ IH]; cbn [app location_loop map List.find].
    + intros _. now rewrite Hraise.
    + rewrite Hraw. cbn [bind]. rewrite Remote_not_in_lower, orb_false_r.
      destruct (Py.contains "," (Py.strip raw)); [discriminate | exact IH].
Qed.

Lemma location_lost_on_failure_witness :
  extract_location broken_page = None /\ extract_location stale_value_page = None.
Proof.
  split.
  - destruct (location_lost_on_failure broken_page) as (Hquery & _).
    apply (Hquery WebDriverException). reflexivity.
  - destruct (location_lost_on_failure stale_value_page) as (_ & Hread).
    apply (Hread [leaf "Engineering"] stale [leaf "Austin, TX"] ["Engineering"]
                 StaleElementReferenceException).
    + reflexivity.
    + repeat constructor.
    + reflexivity.
    + reflexivity.
Defined.

(** ** The mapping of the key-value extractor *)

Lemma dict_set_Forall {V : Type} (P : string * V -> Prop) (k : string) (v : V) (d : dict V) :
  P (k, v) -> Forall P d -> Forall P (dict_set k v d).
Proof.
  intros Hkv Hd. induction Hd as [|[k' v'] d Hhead Htail IH]; cbn [dict_set].
  - now constructor.
  - destruct (String.eqb k k') eqn:E.
    + apply String.eqb_eq in E. subst k'. now constructor.
    + now constructor.
Qed.

Lemma nonempty_true (s : string) : Py.nonempty s = true -> s <> "".
Proof. destruct s; [discriminate | discriminate]. Qed.

Lemma pairs_loop_clean (pairs : list (WebElement * WebElement)) (info : dict string) :
  Forall clean_entry info /\ NoDup (dict_keys info) ->
  Forall clean_entry (fst (pairs_loop pairs info)) /\
  NoDup (dict_keys (fst (pairs_loop pairs info))).
Proof.
  revert info. induction pairs as [|[dt dd] pairs IH]; intros info Hinfo; cbn [pairs_loop].
  - exact Hinfo.
  - destruct (text dt) as [raw_key|e]; [|exact Hinfo].
    destruct (text dd) as [raw_value|e]; [|exact Hinfo].
    apply IH. destruct Hinfo as [Hclean Hnodup].
    destruct (Py.nonempty (Py.strip raw_key) && Py.nonempty (Py.strip raw_value)) eqn:E;
      [|now split].
    apply andb_true_iff in E as [Hk Hv]. split; [|now apply dict_set_NoDup].
    apply dict_set_Forall; [|exact Hclean].
    repeat split; cbn [fst snd]; auto using nonempty_true, strip_trimmed.
Qed.

Lemma dls_loop_clean (dls : list WebElement) (info : dict string) :
  Forall clean_entry info /\ NoDup (dict_keys info) ->
  Forall clean_entry (fst (dls_loop dls info)) /\
  NoDup (dict_keys (fst (dls_loop dls info))).
Proof.
  revert info. induction dls as [|dl dls IH]; intros info Hinfo; cbn [dls_loop].
  - exact Hinfo.
  - destruct (element_find_elements dl TAG_NAME "dt") as [dts|e]; [|exact Hinfo].
    destruct (element_find_elements dl TAG_NAME "dd") as [dds|e]; [|exact Hinfo].
    pose proof (pairs_loop_clean (combine dts dds) info Hinfo) as Hpairs.
    destruct (pairs_loop (combine dts dds) info) as [info' [[]|e]]; cbn [fst] in *.
    + now apply IH.
    + exact Hpairs.
Qed.

(** X6. Whatever the page, and whether or not the scan raises, the mapping
    of the key-value extractor has each label once, and its labels and
    values are non-empty texts without white space at their ends. *)
Theorem additional_info_is_clean (driver : Driver) :
  NoDup (dict_keys (extract_definition_lists driver)) /\
  (forall label value,
      In (label, value) (extract_definition_lists driver) ->
      label <> "" /\ value <> "" /\ trimmed label /\ trimmed value).
Proof.
  assert (Forall clean_entry (extract_definition_lists driver) /\
          NoDup (dict_keys (extract_definition_lists driver))) as [Hclean Hnodup].
  { unfold extract_definition_lists.
    destruct (find_elements driver TAG_NAME "dl") as [dls|e].
    - apply dls_loop_clean. split; constructor.
    - split; constructor. }
  split; [exact Hnodup|]. intros label value Hin.
  rewrite Forall_forall in Hclean. exact (Hclean _ Hin).
Qed.

Lemma additional_info_is_clean_witness :
  "Shift" <> "" /\ "Day" <> "" /\ trimmed "Shift" /\ trimmed "Day".
Proof.
  destruct (additional_info_is_clean stale_page) as (_ & Hclean).
  apply Hclean. right. left. reflexivity.
Defined.

(** ** The mapping of the structured-data extractor *)

Section StructuredShape.
Variable json_loads : string -> result pyval.
Variable py_repr : pyval -> string.

(** X7. Whatever the markup, the mapping of the structured-data extractor
    is empty or has the key [title]; its keys are among [title], [company],
    [description], [posted_date], [employment_type], [location] and
    [salary], each at most once. *)
Theorem structured_data_shape (soup : Soup) :
  (extract_json_ld json_loads py_repr soup = [] \/
   In "title" (dict_keys (extract_json_ld json_loads py_repr soup))) /\
  incl (dict_keys (extract_json_ld json_loads py_repr soup)) structured_keys /\
  NoDup (dict_keys (extract_json_ld json_loads py_repr soup)).
Proof.
  unfold extract_json_ld.
  destruct (scripts_loop_outcome json_loads py_repr (find_all_ld_json soup)) as [-> | [data ->]].
  - split; [now left|]. split; [intros x [] | constructor].
  - destruct (job_posting_block_keys json_loads py_repr data) as (Htitle & Hincl & Hnodup).
    split; [now right|]. now split.
Qed.

(** X8. The first posting alone decides the result when the scan reaches
    it: blocks before it on which [json.loads] raises [JSONDecodeError] or
    gives something that is not a posting, and any blocks after it, change
    nothing.  A block on which [json.loads] raises another exception is not
    passed over: the scan ends at it with nothing stored, whatever
    follows. *)
Theorem first_posting_alone :
  (forall pre post script data,
      Forall (passed_over json_loads) pre ->
      is_job_posting json_loads script data ->
      extract_json_ld json_loads py_repr (mkSoup (pre ++ script :: post))
      = extract_json_ld json_loads py_repr (mkSoup [script])) /\
  (forall pre post script s e,
      Forall (passed_over json_loads) pre ->
      script_string script = Some s ->
      json_loads s = Raise e ->
      e <> JSONDecodeError ->
      extract_json_ld json_loads py_repr (mkSoup (pre ++ script :: post)) = []).
Proof.
  split.
  - intros pre post script data Hpre Hposting.
    rewrite (first_posting_decides _ _ _ _ _ _ Hpre Hposting).
    now rewrite (first_posting_decides _ _ [] [] _ _ (Forall_nil _) Hposting).
  - intros pre post script s e Hpre Hs Hraise Hne.
    unfold extract_json_ld. cbn [find_all_ld_json].
    rewrite (scripts_loop_pass _ _ _ _ _ Hpre). cbn [scripts_loop].
    rewrite Hs. cbn [loads]. rewrite Hraise.
    destruct e; try reflexivity. now contradiction Hne.
Qed.

(** X9. Markup in which every block fails to decode or is not a posting
    gives the empty mapping. *)
Theorem nothing_without_posting (scripts : list ScriptTag) :
  Forall (passed_over json_loads) scripts ->
  extract_json_ld json_loads py_repr (mkSoup scripts) = [].
Proof. apply no_posting_nothing. Qed.

(** X10. When the organization of the first posting is there and is not an
    object, the derivation stops at the company: the mapping has the title
    and nothing else, and the blocks after the posting are not looked
    at. *)
Theorem organization_not_an_object (pre post : list ScriptTag) (script : ScriptTag)
        (data : dict pyval) (organization : pyval) :
  Forall (passed_over json_loads) pre ->
  is_job_posting json_loads script data ->
  dict_get "hiringOrganization" data = Some organization ->
  (forall d, organization <> PyDict d) ->
  extract_json_ld json_loads py_repr (mkSoup (pre ++ script :: post))
  = [ ("title", field "title" data) ].
Proof.
  intros Hpre Hposting Hget Hnot.
  rewrite (first_posting_decides _ _ _ _ _ _ Hpre Hposting).
  assert (dict_get_default "hiringOrganization" (PyDict []) data = organization) as Horg
      by (unfold dict_get_default; now rewrite Hget).
  unfold job_posting_block. rewrite Horg.
  destruct organization; try reflexivity. now contradiction (Hnot d).
Qed.

(** X11. When the location of the first posting is an object whose address
    is there and is not an object, the derivation stops at the location:
    the mapping has the five fields before it, and neither a location nor
    a salary, whatever the salary entry. *)
Theorem address_not_an_object (pre post : list ScriptTag) (script : ScriptTag)
        (data location : dict pyval) (address : pyval) :
  Forall (passed_over json_loads) pre ->
  is_job_posting json_loads script data ->
  is_object (sub_object "hiringOrganization" data) ->
  dict_get "jobLocation" data = Some (PyDict location) ->
  dict_get "address" location = Some address ->
  (forall d, address <> PyDict d) ->
  extract_json_ld json_loads py_repr (mkSoup (pre ++ script :: post))
  = [ ("title", field "title" data);
      ("company", nested_field "hiringOrganization" "name" PyNone data);
      ("description", field "description" data);
      ("posted_date", field "datePosted" data);
      ("employment_type", field "employmentType" data) ].
Proof.
  intros Hpre Hposting [organization Horganization] Hlocation Haddress Hnot.
  rewrite (first_posting_decides _ _ _ _ _ _ Hpre Hposting).
  assert (dict_get_default "jobLocation" (PyDict []) data = PyDict location) as Hloc
      by (unfold dict_get_default; now rewrite Hlocation).
  assert (dict_get_default "address" (PyDict []) location = address) as Haddr
      by (unfold dict_get_default; now rewrite Haddress).
  unfold job_posting_block, location_block, nested_field.
  unfold sub_object in *. rewrite Horganization, Hloc, Haddr. cbn [py_get].
  destruct address; try reflexivity. now contradiction (Hnot d).
Qed.

End StructuredShape.

Lemma first_posting_alone_witness :
  extract_json_ld deep_loads sample_repr
    (mkSoup ([script broken_text; script organization_text]
               ++ script posting_in_texas_text :: [script full_posting_text]))
  = extract_json_ld deep_loads sample_repr (mkSoup [script posting_in_texas_text]) /\
  extract_json_ld deep_loads sample_repr
    (mkSoup ([script broken_text] ++ script deep_text :: [script full_posting_text]))
  = [].
Proof.
  destruct (first_posting_alone deep_loads sample_repr) as (Halone & Hends).
  split.
  - apply (Halone [script broken_text; script organization_text] [script full_posting_text]
                  (script posting_in_texas_text) posting_in_texas).
    + constructor; [|constructor; [|constructor]].
      * exists broken_text. split; [reflexivity|]. left. reflexivity.
      * exists organization_text. split; [reflexivity|]. right.
        exists (PyDict organization). split; reflexivity.
    + exists posting_in_texas_text. split; [reflexivity|]. split; reflexivity.
  - apply (Hends [script broken_text] [script full_posting_text] (script deep_text)
                 deep_text RecursionError).
    + constructor; [|constructor].
      exists broken_text. split; [reflexivity|]. left. reflexivity.
    + reflexivity.
    + reflexivity.
    + discriminate.
Defined.

Lemma nothing_without_posting_witness :
  extract_json_ld sample_loads sample_repr
    (mkSoup [script broken_text; script organization_text]) = [].
Proof.
  apply nothing_without_posting.
  constructor; [|constructor; [|constructor]].
  - exists broken_text. split; [reflexivity|]. left. reflexivity.
  - exists organization_text. split; [reflexivity|]. right.
    exists (PyDict organization). split; reflexivity.
Defined.

Lemma organization_not_an_object_witness :
  extract_json_ld named_loads sample_repr
    (mkSoup ([script broken_text] ++ script posting_by_name_text :: [script full_posting_text]))
  = [ ("title", PyStr "Data Analyst") ].
Proof.
  apply (organization_not_an_object named_loads sample_repr
           [script broken_text] [script full_posting_text]
           (script posting_by_name_text) posting_by_name (PyStr "Acme Corp")).
  - constructor; [|constructor].
    exists broken_text. split; [reflexivity|]. left. reflexivity.
  - exists posting_by_name_text. split; [reflexivity|]. split; reflexivity.
  - reflexivity.
  - discriminate.
Defined.

Lemma address_not_an_object_witness :
  extract_json_ld named_loads sample_repr
    (mkSoup ([] ++ script posting_at_text_address_text :: [script full_posting_text]))
  = [ ("title", PyStr "Data Analyst");
      ("company", PyStr "Acme Corp");
      ("description", PyNone);
      ("posted_date", PyNone);
      ("employment_type", PyNone) ].
Proof.
  apply (address_not_an_object named_loads sample_repr
           [] [script full_posting_text]
           (script posting_at_text_address_text) posting_at_text_address
           [ ("address", PyStr "Austin, TX") ] (PyStr "Austin, TX")).
  - constructor.
  - exists posting_at_text_address_text. split; [reflexivity|]. split; reflexivity.
  - eexists. reflexivity.
  - reflexivity.
  - reflexivity.
  - discriminate.
Defined.

(** ** More on the merge *)

Lemma fold_left_fixed {A B : Type} (f : A -> B -> A) (items : list B) (a : A) :
  (forall item, In item items -> f a item = a) -> fold_left f items a = a.
Proof.
  induction items as [|item items IH]; intros H; [reflexivity|].
  cbn [fold_left]. rewrite (H item) by now left.
  apply IH. intros i Hi. apply H. now right.
Qed.

Lemma dict_get_of_entry {V : Type} (k : string) (v : V) (d : dict V) :
  NoDup (dict_keys d) -> In (k, v) d -> dict_get k d = Some v.
Proof.
  induction d as [|[k0 v0] d IH]; intros Hnodup Hin; [destruct Hin|].
  cbn [dict_keys map fst] in Hnodup. fold (dict_keys d) in Hnodup.
  apply NoDup_cons_iff in Hnodup as [Hfresh Hnodup].
  cbn [dict_get]. destruct Hin as [[= -> ->] | Hin].
  - now rewrite String.eqb_refl.
  - destruct (String.eqb k k0) eqn:E; [|now apply IH].
    apply String.eqb_eq in E as ->. exfalso. apply Hfresh.
    apply (in_map fst) in Hin. exact Hin.
Qed.

Lemma merge_loop_keys (items record : dict pyval) :
  exists added,
    dict_keys (fold_left merge_item items record) = dict_keys record ++ added /\
    incl added (dict_keys items).
Proof.
  revert record. induction items as [|[k v] items IH]; intros record; cbn [fold_left].
  - exists []. split; [now rewrite app_nil_r | intros x []].
  - destruct (IH (merge_item record (k, v))) as (added & -> & Hincl).
    unfold merge_item.
    destruct (truthy v && negb (truthy (dict_get_default k PyNone record))).
    + rewrite dict_keys_set. destruct (dict_get k record).
      * exists added. split; [reflexivity | now apply incl_tl].
      * exists (k :: added). split; [now rewrite <- app_assoc|].
        intros x [<-|Hx]; [now left | right; now apply Hincl].
    + exists added. split; [reflexivity | now apply incl_tl].
Qed.

Lemma merge_loop_NoDup (items record : dict pyval) :
  NoDup (dict_keys record) -> NoDup (dict_keys (fold_left merge_item items record)).
Proof.
  revert record. induction items as [|[k v] items IH]; intros record H; [exact H|].
  cbn [fold_left]. apply IH. unfold merge_item.
  destruct (truthy v && negb (truthy (dict_get_default k PyNone record))); [|exact H].
  now apply dict_set_NoDup.
Qed.

Lemma merge_NoDup (json_ld_data job_data : dict pyval) :
  NoDup (dict_keys job_data) -> NoDup (dict_keys (merge json_ld_data job_data)).
Proof.
  intros H. unfold merge. destruct json_ld_data; [exact H | now apply merge_loop_NoDup].
Qed.

(** X12. Merging the same structured-data result a second time changes
    nothing. *)
Theorem merge_idempotent (json_ld_data job_data : dict pyval) :
  NoDup (dict_keys json_ld_data) ->
  merge json_ld_data (merge json_ld_data job_data) = merge json_ld_data job_data.
Proof.
  intros Hnodup. destruct json_ld_data as [|item items]; [reflexivity|].
  remember (item :: items) as data eqn:Hdata.
  assert (forall record, merge data record = fold_left merge_item data record) as Hmerge
      by (intros record; subst data; reflexivity).
  rewrite !Hmerge. apply fold_left_fixed. intros [k v] Hin.
  assert (truthy v = true ->
          truthy (dict_get_default k PyNone (fold_left merge_item data job_data)) = true)
    as Hfilled; [intros Htruthy|].
  2: { set (merged := fold_left merge_item data job_data) in *. unfold merge_item.
       destruct (truthy v); [|reflexivity]. now rewrite Hfilled. }
  unfold dict_get_default. rewrite merge_loop_get by exact Hnodup.
  rewrite (dict_get_of_entry k v data Hnodup Hin), Htruthy. cbn [andb].
  unfold filled, dict_get_default.
  destruct (dict_get k job_data) as [old|]; cbn [truthy negb].
  - destruct (truthy old) eqn:Hold; cbn [negb]; [exact Hold | exact Htruthy].
  - exact Htruthy.
Qed.

Lemma merge_idempotent_witness :
  merge structured_result (merge structured_result dom_record)
  = merge structured_result dom_record.
Proof.
  apply merge_idempotent. repeat constructor; simpl; intuition discriminate.
Defined.

(** X13. The merge keeps the keys of the record in their place and order;
    the keys it adds come after them and are keys of the structured-data
    result; and no key of the merged record occurs twice when none does in
    the record. *)
Theorem merge_extends_record (json_ld_data job_data : dict pyval) :
  (exists added,
      dict_keys (merge json_ld_data job_data) = dict_keys job_data ++ added /\
      incl added (dict_keys json_ld_data)) /\
  (NoDup (dict_keys job_data) -> NoDup (dict_keys (merge json_ld_data job_data))).
Proof.
  split; [|apply merge_NoDup].
  unfold merge. destruct json_ld_data as [|item items].
  - exists []. split; [now rewrite app_nil_r | intros x []].
  - apply merge_loop_keys.
Qed.

Lemma merge_extends_record_witness :
  NoDup (dict_keys (merge structured_result dom_record)).
Proof.
  destruct (merge_extends_record structured_result dom_record) as (_ & Hnodup).
  apply Hnodup. repeat constructor; simpl; intuition discriminate.
Defined.

(** ** The record of a run, field by field *)

Lemma job_id_step_other (url key : string) (job_data parsed : dict pyval) :
  job_id_step url job_data = Ok parsed ->
  String.eqb key "job_id" = false ->
  dict_get key parsed = dict_get key job_data.
Proof.
  unfold job_id_step. intros H Hkey.
  destruct (Py.contains "/jobs/" url); [|now injection H as <-].
  destruct (index (Py.split "/jobs/" url) 1) as [after|e]; cbn [bind] in H; [|discriminate].
  destruct (index (Py.split "/" after) 0) as [job_id|e]; cbn [bind] in H; [|discriminate].
  injection H as <-. now rewrite dict_get_set, Hkey.
Qed.

Lemma full_page_text_step_other (driver : Driver) (job_data : dict pyval) (key : string) :
  String.eqb key "full_page_text" = false ->
  dict_get key (full_page_text_step driver job_data) = dict_get key job_data.
Proof.
  intros Hkey. unfold full_page_text_step.
  destruct (body <- find_element driver TAG_NAME "body" ;; text body); [|reflexivity].
  now rewrite dict_get_set, Hkey.
Qed.

Section RunFields.
Variable json_loads : string -> result pyval.
Variable py_repr : pyval -> string.

Lemma run_unfold (url now : string) (driver : Driver) (soup : Soup) (job_data : dict pyval) :
  scrape_icims_job json_loads py_repr url now (Ok (driver, soup)) = Some job_data ->
  exists parsed,
    job_id_step url (initial_job_data url now) = Ok parsed /\
    job_data = full_page_text_step driver
                 (merge (extract_json_ld json_loads py_repr soup) (dom_phase driver parsed)).
Proof.
  unfold scrape_icims_job, extract_job_details. cbn [bind fst snd].
  destruct (job_id_step url (initial_job_data url now)) as [parsed|e]; cbn [bind];
    [|discriminate].
  intros [= <-]. now exists parsed.
Qed.

(** X14. Once the page is loaded the run always returns a record:
    no address, page or markup makes it fail. *)
Theorem run_always_returns (url now : string) (driver : Driver) (soup : Soup) :
  exists job_data,
    scrape_icims_job json_loads py_repr url now (Ok (driver, soup)) = Some job_data /\
    job_data <> [].
Proof.
  destruct (job_id_step_total url (initial_job_data url now)) as [parsed Hparsed].
  destruct (job_id_kept json_loads py_repr url now driver soup parsed Hparsed)
    as (job_data & Hrun & _).
  exists job_data. split; [exact Hrun|].
  destruct (record_keys json_loads py_repr url now driver soup job_data Hrun) as [Hincl _].
  intros ->. apply (Hincl "url"). now left.
Qed.

(** X15. The record of a run has every key of the canonical record, no
    key twice, and besides them at most [title] and [full_page_text]: it
    has between 11 and 13 keys. *)
Theorem run_record_keys (url now : string) (driver : Driver) (soup : Soup)
        (job_data : dict pyval) :
  scrape_icims_job json_loads py_repr url now (Ok (driver, soup)) = Some job_data ->
  incl canonical_keys (dict_keys job_data) /\
  incl (dict_keys job_data) (canonical_keys ++ ["title"; full_text_key]) /\
  NoDup (dict_keys job_data) /\
  11 <= List.length job_data <= 13.
Proof.
  intros Hrun.
  destruct (record_keys json_loads py_repr url now driver soup job_data Hrun) as [Hhas Honly].
  assert (NoDup (dict_keys job_data)) as Hnodup.
  { apply run_unfold in Hrun as (parsed & Hparsed & ->).
    unfold full_page_text_step.
    assert (NoDup (dict_keys (merge (extract_json_ld json_loads py_repr soup)
                                    (dom_phase driver parsed)))) as Hmerged.
    { apply merge_NoDup. unfold dom_phase. repeat apply dict_set_NoDup.
      assert (In "job_id" (dict_keys (initial_job_data url now))) as Hkey by (simpl; tauto).
      rewrite (job_id_step_keys url _ _ Hkey Hparsed).
      repeat constructor; simpl; intuition discriminate. }
    destruct (body <- find_element driver TAG_NAME "body" ;; text body);
      [now apply dict_set_NoDup | exact Hmerged]. }
  split; [exact Hhas|]. split; [exact Honly|]. split; [exact Hnodup|].
  unfold dict_keys in *. rewrite <- (length_map fst job_data). split.
  - change 11 with (List.length canonical_keys).
    apply NoDup_incl_length; [|exact Hhas].
    repeat constructor; simpl; intuition discriminate.
  - change 13 with (List.length (canonical_keys ++ ["title"; full_text_key])).
    now apply NoDup_incl_length.
Qed.

(** X16. In the record of a run the address and the time are the ones
    given, the title is the one of the page, [None] when the page has none,
    the additional information is the mapping of the key-value extractor,
    and the identifier is the one parsed from the address: the structured
    data reaches none of them. *)
Theorem run_page_fields (url now : string) (driver : Driver) (soup : Soup)
        (job_data : dict pyval) :
  scrape_icims_job json_loads py_repr url now (Ok (driver, soup)) = Some job_data ->
  dict_get "url" job_data = Some (PyStr url) /\
  dict_get "scrape_timestamp" job_data = Some (PyStr now) /\
  dict_get "job_title" job_data = Some (of_optional (extract_job_title driver)) /\
  dict_get "additional_info" job_data
  = Some (of_additional_info (extract_definition_lists driver)) /\
  (forall parsed,
      job_id_step url (initial_job_data url now) = Ok parsed ->
      dict_get "job_id" job_data = dict_get "job_id" parsed).
Proof.
  intros Hrun. apply run_unfold in Hrun as (parsed & Hparsed & ->).
  repeat split;
    try (intros parsed' Hparsed'; assert (parsed' = parsed) as -> by congruence);
    rewrite full_page_text_step_other by reflexivity;
    rewrite merge_keeps_other_keys by (simpl; intuition discriminate);
    unfold dom_phase; rewrite !dict_get_set; cbn [String.eqb Ascii.eqb Bool.eqb];
    try reflexivity;
    now rewrite (job_id_step_other url _ _ _ Hparsed) by reflexivity.
Qed.

Lemma dom_phase_get (driver : Driver) (parsed : dict pyval) (url now key : string) :
  job_id_step url (initial_job_data url now) = Ok parsed ->
  In key ["company"; "posted_date"; "employment_type"; "salary"] ->
  dict_get key (dom_phase driver parsed) = Some PyNone.
Proof.
  intros Hparsed Hkey. unfold dom_phase.
  destruct Hkey as [<-|[<-|[<-|[<-|[]]]]];
    rewrite !dict_get_set; cbn [String.eqb Ascii.eqb Bool.eqb];
    now rewrite (job_id_step_other url _ _ _ Hparsed) by reflexivity.
Qed.

(** X17. In the record of a run the location and the description are the
    ones of the page when the page has them, and otherwise the structured
    ones when those are non-empty; the company, the posting date, the
    employment type and the salary are the structured ones when those are
    non-empty; each is [None] in the remaining case. *)
Theorem run_merged_fields (url now : string) (driver : Driver) (soup : Soup)
        (job_data : dict pyval) :
  scrape_icims_job json_loads py_repr url now (Ok (driver, soup)) = Some job_data ->
  let structured := extract_json_ld json_loads py_repr soup in
  dict_get "location" job_data
  = Some (match extract_location driver with
          | Some location => PyStr location
          | None => gap_filler "location" structured
          end) /\
  dict_get "description" job_data
  = Some (match extract_description driver with
          | Some description => PyStr description
          | None => gap_filler "description" structured
          end) /\
  (forall key,
      In key ["company"; "posted_date"; "employment_type"; "salary"] ->
      dict_get key job_data = Some (gap_filler key structured)).
Proof.
  intros Hrun structured. apply run_unfold in Hrun as (parsed & Hparsed & ->).
  fold structured.
  assert (forall key value,
             dict_get key (dom_phase driver parsed) = Some value ->
             (truthy value = false -> value = PyNone) ->
             dict_get key (merge structured (dom_phase driver parsed))
             = Some (if truthy value then value else gap_filler key structured)) as Hmerge.
  { intros key value Hget Hnone.
    rewrite merge_get by apply extract_json_ld_keys.
    unfold filled, gap_filler, dict_get_default. rewrite Hget.
    destruct (dict_get key structured) as [v|]; destruct (truthy value) eqn:Hvalue;
      cbn [negb truthy]; rewrite ?andb_false_r, ?andb_true_r; try reflexivity;
      rewrite (Hnone eq_refl); [now destruct (truthy v) | reflexivity]. }
  split; [|split].
  - rewrite full_page_text_step_other by reflexivity.
    assert (dict_get "location" (dom_phase driver parsed)
            = Some (of_optional (extract_location driver))) as Hget
        by (unfold dom_phase; now rewrite !dict_get_set).
    destruct (extract_location driver) as [location|] eqn:Hlocation.
    + apply location_nonempty in Hlocation as Hcomma.
      rewrite (Hmerge _ _ Hget); cbn [of_optional truthy]; rewrite Hcomma;
        [reflexivity | discriminate].
    + now rewrite (Hmerge _ _ Hget).
  - rewrite full_page_text_step_other by reflexivity.
    assert (dict_get "description" (dom_phase driver parsed)
            = Some (of_optional (extract_description driver))) as Hget
        by (unfold dom_phase; now rewrite !dict_get_set).
    destruct (extract_description driver) as [description|] eqn:Hdescription.
    + apply description_is_long in Hdescription.
      assert (Py.nonempty description = true) as Hne
          by (destruct description; [simpl in Hdescription; lia | reflexivity]).
      rewrite (Hmerge _ _ Hget); cbn [of_optional truthy]; rewrite Hne;
        [reflexivity | discriminate].
    + now rewrite (Hmerge _ _ Hget).
  - intros key Hkey.
    rewrite full_page_text_step_other
      by (destruct Hkey as [<-|[<-|[<-|[<-|[]]]]]; reflexivity).
    now rewrite (Hmerge key PyNone)
      by (try (now apply (dom_phase_get driver parsed url now)); reflexivity).
Qed.

(** X18. The record of a run has the key [full_page_text] exactly when the
    page has a body whose text can be read, and its value is that text as
    read, not trimmed. *)
Theorem run_full_page_text (url now : string) (driver : Driver) (soup : Soup)
        (job_data : dict pyval) :
  scrape_icims_job json_loads py_repr url now (Ok (driver, soup)) = Some job_data ->
  dict_get full_text_key job_data
  = match (body <- find_element driver TAG_NAME "body" ;; text body) with
    | Ok body_text => Some (PyStr body_text)
    | Raise _ => None
    end.
Proof.
  intros Hrun. apply run_unfold in Hrun as (parsed & Hparsed & ->).
  unfold full_page_text_step, full_text_key.
  destruct (body <- find_element driver TAG_NAME "body" ;; text body).
  - now rewrite dict_get_set.
  - rewrite merge_keeps_other_keys by (simpl; intuition discriminate).
    unfold dom_phase. rewrite !dict_get_set. cbn [String.eqb Ascii.eqb Bool.eqb].
    now rewrite (job_id_step_other url _ _ _ Hparsed) by reflexivity.
Qed.

End RunFields.

Lemma run_record_keys_witness :
  incl canonical_keys (dict_keys whole_record) /\
  incl (dict_keys whole_record) (canonical_keys ++ ["title"; full_text_key]) /\
  NoDup (dict_keys whole_record) /\
  11 <= List.length whole_record <= 13.
Proof.
  apply (run_record_keys sample_loads sample_repr main_url sample_now whole_page
                         full_posting_soup whole_record).
  reflexivity.
Defined.

Lemma run_page_fields_witness :
  dict_get "url" whole_record = Some (PyStr main_url) /\
  dict_get "scrape_timestamp" whole_record = Some (PyStr sample_now) /\
  dict_get "job_title" whole_record = Some (of_optional (extract_job_title whole_page)) /\
  dict_get "additional_info" whole_record
  = Some (of_additional_info (extract_definition_lists whole_page)) /\
  (forall parsed,
      job_id_step main_url (initial_job_data main_url sample_now) = Ok parsed ->
      dict_get "job_id" whole_record = dict_get "job_id" parsed).
Proof.
  apply (run_page_fields sample_loads sample_repr main_url sample_now whole_page
                         full_posting_soup whole_record).
  reflexivity.
Defined.

Lemma run_merged_fields_witness :
  dict_get "location" whole_record = Some (PyStr "Austin, TX") /\
  dict_get "location" bare_record = Some (PyStr "Austin, TX") /\
  dict_get "company" bare_record = Some (PyStr "Acme Corp") /\
  dict_get "employment_type" bare_record = Some PyNone.
Proof.
  destruct (run_merged_fields sample_loads sample_repr main_url sample_now whole_page
                              full_posting_soup whole_record eq_refl) as (Hwhole & _).
  destruct (run_merged_fields sample_loads sample_repr main_url sample_now bare_page
                              full_posting_soup bare_record eq_refl) as (Hbare & _ & Hothers).
  split; [exact Hwhole|]. split; [exact Hbare|]. split.
  - apply (Hothers "company"). simpl. tauto.
  - apply (Hothers "employment_type"). simpl. tauto.
Defined.

Lemma run_full_page_text_witness :
  dict_get full_text_key whole_record = Some (PyStr " Data Analyst Austin, TX ") /\
  dict_get full_text_key bare_record = None.
Proof.
  split.
  - apply (run_full_page_text sample_loads sample_repr main_url sample_now whole_page
                              full_posting_soup whole_record).
    reflexivity.
  - apply (run_full_page_text sample_loads sample_repr main_url sample_now bare_page
                              full_posting_soup bare_record).
    reflexivity.
Defined.

(** ** The identifier *)

(** X19. An identifier parsed from an address has no slash in it: when the
    address has the marker, the step stores a text without a slash under
    [job_id] and changes nothing else. *)
Theorem job_id_has_no_slash (url : string) (job_data parsed : dict pyval) :
  Py.contains "/jobs/" url = true ->
  job_id_step url job_data = Ok parsed ->
  exists job_id,
    parsed = dict_set "job_id" (PyStr job_id) job_data /\
    Py.contains "/" job_id = false.
Proof.
  intros Hmarker. unfold job_id_step. rewrite Hmarker.
  destruct (index (Py.split "/jobs/" url) 1) as [after|e]; cbn [bind]; [|discriminate].
  unfold Py.split at 1. rewrite (index_first "") by apply split_rounds_nonempty.
  cbn [bind]. intros [= <-]. eexists. split; [reflexivity|].
  rewrite split_rounds_head by (discriminate || lia).
  destruct (Py.find "/" after) as [i|] eqn:E.
  - now apply take_before_char.
  - rewrite contains_find. now rewrite E.
Qed.

Lemma job_id_has_no_slash_witness :
  exists job_id,
    [("job_id", PyStr "5417")] = dict_set "job_id" (PyStr job_id) [] /\
    Py.contains "/" job_id = false.
Proof. apply (job_id_has_no_slash main_url [] [("job_id", PyStr "5417")]); reflexivity. Defined.

(** ** The browser session *)

Section SessionFacts.
Variable json_loads : string -> result pyval.
Variable py_repr : pyval -> string.
Variable parse_html : string -> result Soup.

Lemma session_body_page (url now : string) (browser : Browser) :
  succeeded (launch browser) ->
  match session_body json_loads py_repr parse_html url now browser with
  | Ok job_data => Some job_data
  | Raise _ => None
  end
  = scrape_icims_job json_loads py_repr url now (page_of parse_html url browser).
Proof.
  intros [u Hlaunch]. unfold session_body, scrape_icims_job, page_of, extract_job_details.
  rewrite Hlaunch. cbn [bind].
  destruct (get browser url); cbn [bind]; [|reflexivity].
  destruct (wait_for_frame browser); cbn [bind]; [|reflexivity].
  destruct (switch_to_frame browser); cbn [bind]; [|reflexivity].
  destruct (job_id_step_total url (initial_job_data url now)) as [parsed Hparsed].
  rewrite Hparsed. cbn [bind].
  destruct (page_source browser) as [source|e]; cbn [bind]; [|reflexivity].
  destruct (parse_html source); cbn [bind fst snd]; [|reflexivity].
  rewrite ?Hparsed. reflexivity.
Qed.

(** X20. When the browser closes without error, the whole function returns
    what the extraction returns on the view of the frame and the parsed
    page source, and [None] when the launch, the load, the wait for the
    frame, the switch into it, the read of the source or the parse of the
    source raises. *)
Theorem session_returns_extraction (url now : string) (browser : Browser) :
  succeeded (quit browser) ->
  snd (scrape_session json_loads py_repr parse_html url now browser)
  = Ok (scrape_icims_job json_loads py_repr url now (page_of parse_html url browser)).
Proof.
  intros [u Hquit]. unfold scrape_session.
  destruct (launch browser) as [l|e] eqn:Hlaunch.
  - rewrite Hquit. cbn [snd]. f_equal. apply session_body_page. now exists l.
  - cbn [snd]. unfold page_of. now rewrite Hlaunch.
Qed.

(** X21. The whole function returns a record exactly when the launch, the
    load of the page, the wait for the frame, the switch into it, the read
    of the page source, the parse of that source and the closing of the
    browser all succeed: nothing else in the address, the page or the
    markup makes it return [None]. *)
Theorem session_all_or_nothing (url now : string) (browser : Browser) :
  (exists job_data,
      snd (scrape_session json_loads py_repr parse_html url now browser) = Ok (Some job_data))
  <->
  succeeded (launch browser) /\ succeeded (get browser url) /\
  succeeded (wait_for_frame browser) /\ succeeded (switch_to_frame browser) /\
  (exists source, page_source browser = Ok source /\ succeeded (parse_html source)) /\
  succeeded (quit browser).
Proof.
  unfold scrape_session, session_body, succeeded. split.
  - intros [job_data H].
    destruct (launch browser) as [l|e]; [|discriminate].
    destruct (quit browser) as [q|e]; [|discriminate].
    destruct (get browser url) as [g|e]; cbn [bind snd] in H; [|discriminate].
    destruct (wait_for_frame browser) as [w|e]; cbn [bind] in H; [|discriminate].
    destruct (switch_to_frame browser) as [s|e]; cbn [bind] in H; [|discriminate].
    destruct (job_id_step url (initial_job_data url now)) as [parsed|e]; cbn [bind] in H;
      [|discriminate].
    destruct (page_source browser) as [source|e]; cbn [bind] in H; [|discriminate].
    destruct (parse_html source) as [soup|e] eqn:Hparse; cbn [bind] in H; [|discriminate].
    repeat split; eauto.
  - intros ([l ->] & [g ->] & [w ->] & [s ->] & (source & -> & [soup Hparse]) & [q ->]).
    cbn [bind snd].
    destruct (job_id_step_total url (initial_job_data url now)) as [parsed ->].
    cbn [bind]. rewrite Hparse. cbn [bind]. eauto.
Qed.

(** X22. The closing of the browser is called exactly when the browser was
    launched; and when the closing raises, the call raises that exception,
    even after an extraction that succeeded. *)
Theorem browser_closed_when_launched (url now : string) (browser : Browser) :
  (fst (scrape_session json_loads py_repr parse_html url now browser) = true
   <-> succeeded (launch browser)) /\
  (forall e,
      succeeded (launch browser) -> quit browser = Raise e ->
      snd (scrape_session json_loads py_repr parse_html url now browser) = Raise e).
Proof.
  unfold scrape_session, succeeded. split.
  - destruct (launch browser) as [l|e].
    + destruct (quit browser); cbn [fst]; split; eauto.
    + cbn [fst]. split; [discriminate | intros [l H]; discriminate].
  - intros e [l ->] ->. reflexivity.
Qed.

End SessionFacts.

Lemma session_returns_extraction_witness :
  snd (scrape_session sample_loads sample_repr sample_parse_html main_url sample_now good_browser)
  = Ok (Some whole_record) /\
  snd (scrape_session sample_loads sample_repr sample_parse_html main_url sample_now
                      browser_with_rejected_source)
  = Ok None /\
  snd (scrape_session sample_loads sample_repr sample_parse_html main_url sample_now
                      browser_without_frame)
  = Ok None.
Proof.
  split; [|split].
  - apply (session_returns_extraction sample_loads sample_repr sample_parse_html
             main_url sample_now good_browser).
    exists tt. reflexivity.
  - apply (session_returns_extraction sample_loads sample_repr sample_parse_html
             main_url sample_now browser_with_rejected_source).
    exists tt. reflexivity.
  - apply (session_returns_extraction sample_loads sample_repr sample_parse_html
             main_url sample_now browser_without_frame).
    exists tt. reflexivity.
Defined.

Lemma session_all_or_nothing_witness :
  exists job_data,
    snd (scrape_session sample_loads sample_repr sample_parse_html main_url sample_now good_browser)
    = Ok (Some job_data).
Proof.
  apply (session_all_or_nothing sample_loads sample_repr sample_parse_html
           main_url sample_now good_browser).
  split; [exists tt; reflexivity|]. split; [exists tt; reflexivity|].
  split; [exists tt; reflexivity|]. split; [exists tt; reflexivity|].
  split; [|exists tt; reflexivity].
  exists "<html>". split; [reflexivity|]. exists full_posting_soup. reflexivity.
Defined.

Lemma browser_closed_when_launched_witness :
  fst (scrape_session sample_loads sample_repr sample_parse_html main_url sample_now good_browser)
  = true /\
  snd (scrape_session sample_loads sample_repr sample_parse_html main_url sample_now
                      browser_stuck_open)
  = Raise WebDriverException.
Proof.
  split.
  - apply (browser_closed_when_launched sample_loads sample_repr sample_parse_html
             main_url sample_now good_browser).
    exists tt. reflexivity.
  - apply (browser_closed_when_launched sample_loads sample_repr sample_parse_html
             main_url sample_now browser_stuck_open).
    + exists tt. reflexivity.
    + reflexivity.
Defined.
